(** * clickthrough.c: an override-redirect ARGB overlay window and its input shape

    The program is one straight-line [main] that talks to an X server through
    Xlib.  The embedding has three layers:

    - the X server, as far as the requests of [main] reach it: colormaps,
      windows with their attributes and their three client shape regions
      (bounding, clip, input), graphics contexts, what has been drawn, and
      where a pointer event at a screen position is delivered;
    - Xlib, as a state monad over the process: an output buffer of requests
      that [XFlush] hands to the server, the XID allocator, and the trace of
      everything the process did (requests, flushes, sleeps, console lines);
    - [main] itself, written call by call in that monad, cut at the source's
      own section comments into [selectAlphaVisual], [createWindow], [show],
      [setClickThrough] and [paint].

    The server's reaction to a request is not in the repository; it is taken
    from the X11 core protocol and from the X Nonrectangular Window Shape
    Extension (version 1.1), which are cited where a rule matters. *)

From stdpp Require Import gmap list strings.
Local Open Scope Z_scope.

(** ** Constants of X.h, Xlib.h and extensions/shape.h *)

Definition XNone : Z := 0.              (* X.h: #define None 0L *)
Definition XTrue : Z := 1.              (* Xlib.h: #define True 1 *)
Definition TrueColor : Z := 4.          (* X.h: visual classes *)
Definition AllocNone : Z := 0.          (* X.h: create colormap, no entries *)
Definition AllocAll : Z := 1.
Definition InputOutput : Z := 1.        (* X.h: window classes *)
Definition CWBackPixel : Z := Z.shiftl 1 1.
Definition CWBorderPixmap : Z := Z.shiftl 1 2.
Definition CWBorderPixel : Z := Z.shiftl 1 3.
Definition CWOverrideRedirect : Z := Z.shiftl 1 9.
Definition CWColormap : Z := Z.shiftl 1 13.
Definition ShapeSet : Z := 0.           (* shape.h: operations *)
Definition ShapeUnion : Z := 1.
Definition ShapeIntersect : Z := 2.
Definition ShapeSubtract : Z := 3.
Definition ShapeInvert : Z := 4.
Definition ShapeBounding : Z := 0.      (* shape.h: kinds *)
Definition ShapeClip : Z := 1.
Definition ShapeInput : Z := 2.

(** A C [int]: 32 bits, two's complement. *)
Definition wrap_int (z : Z) : Z := (z + 2 ^ 31) mod 2 ^ 32 - 2 ^ 31.
Definition int_sub (a b : Z) : Z := wrap_int (a - b).

(** The alpha channel of a 32-bit ARGB pixel: its top eight bits. *)
Definition alpha (pixel : Z) : Z := Z.land (Z.shiftr pixel 24) 255.

(** ** Data the program exchanges with Xlib *)

(** [XVisualInfo], the fields the program reads.  [visual] stands for the
    [Visual *] and is identified with the id of the visual it points to; a
    pointer that points to no visual of the screen is an id the screen does
    not have. *)
Record XVisualInfo := {
  visual : Z;
  depth : Z;
  c_class : Z
}.

(** [XSetWindowAttributes], the four fields the program writes (the value
    mask of the create request selects exactly these four). *)
Record XSetWindowAttributes := {
  colormap : Z;
  background_pixel : Z;
  border_pixel : Z;
  override_redirect : Z
}.

Record XRectangle := {
  rx : Z;
  ry : Z;
  rwidth : Z;
  rheight : Z
}.

(** What the connection setup tells the client about the server, and the two
    facts of the environment that decide the program's branches. *)
Record Connection := {
  display_available : bool;      (* XOpenDisplay(NULL) returns non-NULL *)
  root_window : Z;               (* RootWindow(display, screen) *)
  root_depth : Z;
  root_visual : Z;
  width_in_pixels : Z;           (* DisplayWidth(display, screen) *)
  screen_visuals : list XVisualInfo;
  shape_extension : bool;        (* the server lists the SHAPE extension *)
  window_manager : bool;         (* a client holds SubstructureRedirect on root *)
  resource_base : Z              (* first XID of this client's range *)
}.

(** ** Regions *)

(** A region is a set of pixels.  Rectangle lists are the protocol's own
    representation; the other constructors are the shape operations, kept
    symbolic so that membership stays computable. *)
Inductive Region :=
| Rects (rs : list XRectangle)
| Translate (dx dy : Z) (r : Region)
| Union (a b : Region)
| Intersect (a b : Region)
| Subtract (a b : Region).

Definition in_rect (r : XRectangle) (px py : Z) : bool :=
  (rx r <=? px) && (px <? rx r + rwidth r) &&
  (ry r <=? py) && (py <? ry r + rheight r).

Fixpoint contains (r : Region) (px py : Z) : bool :=
  match r with
  | Rects rs => existsb (fun q => in_rect q px py) rs
  | Translate dx dy a => contains a (px - dx) (py - dy)
  | Union a b => contains a px py || contains b px py
  | Intersect a b => contains a px py && contains b px py
  | Subtract a b => contains a px py && negb (contains b px py)
  end.

Definition empty_region : Region := Rects [].

Definition region_empty (r : Region) : Prop :=
  ∀ px py, contains r px py = false.

(** ** The X server *)

Inductive Drawing :=
| Fill (foreground : Z) (area : XRectangle)
| Text (foreground : Z) (x y : Z) (s : string).

(** A window as the server holds it.  A client shape region that is [None]
    has not been specified: the default region applies. *)
Record Window := {
  w_x : Z;
  w_y : Z;
  w_width : Z;
  w_height : Z;
  w_border_width : Z;
  w_depth : Z;
  w_visual : Z;
  w_colormap : option Z;
  w_background : option Z;
  w_border : option Z;
  w_override_redirect : bool;
  w_mapped : bool;
  w_name : option string;
  w_bounding : option Region;
  w_clip : option Region;
  w_input : option Region;
  w_drawn : list Drawing            (* newest first *)
}.

Inductive XError :=
| BadWindow
| BadValue
| BadColor
| BadGC
| BadPixmap
| BadDrawable
| BadMatch_visual           (* depth and visual not supported by the screen *)
| BadMatch_alloc            (* AllocAll on a static visual class *)
| BadMatch_border           (* depth differs from parent's, no border given *)
| BadMatch_colormap_needed  (* visual differs from parent's, no colormap given *)
| BadMatch_colormap_visual. (* the colormap's visual is not the window's *)

Record Server := {
  colormaps : gmap Z Z;         (* colormap id to its visual *)
  windows : gmap Z Window;      (* children of the root *)
  stacking : list Z;            (* children of the root, topmost first *)
  gcs : gmap Z Z;               (* graphics context id to its foreground *)
  pixmaps : gmap Z Region;      (* 1-bit pixmaps, as the region of their set bits *)
  map_requests : list Z;        (* MapRequest events handed to the window manager *)
  errors : list XError          (* errors generated so far, oldest first *)
}.

Definition initial_server : Server :=
  {| colormaps := ∅; windows := ∅; stacking := []; gcs := ∅; pixmaps := ∅;
     map_requests := []; errors := [] |}.

Inductive Request :=
| CreateColormap (mid window vis alloc : Z)
| CreateWindow (wid parent x y width height border_width dep class vis
                valuemask : Z) (attrs : XSetWindowAttributes)
| ChangeProperty_WM_NAME (w : Z) (name : string)
| MapWindow (w : Z)
| UnmapWindow (w : Z)
| ShapeMask (dest destKind op xOff yOff src : Z)
| ShapeRectangles (dest destKind op xOff yOff : Z) (rects : list XRectangle)
| CreateGC (cid drawable valuemask : Z)
| ChangeGC_foreground (gc foreground : Z)
| PolyFillRectangle (drawable gc : Z) (area : XRectangle)
| PolyText8 (drawable gc x y : Z) (s : string).

(** *** Record updates *)

Definition raise (e : XError) (s : Server) : Server :=
  {| colormaps := colormaps s; windows := windows s; stacking := stacking s;
     gcs := gcs s; pixmaps := pixmaps s; map_requests := map_requests s;
     errors := errors s ++ [e] |}.

Definition with_colormaps (c : gmap Z Z) (s : Server) : Server :=
  {| colormaps := c; windows := windows s; stacking := stacking s;
     gcs := gcs s; pixmaps := pixmaps s; map_requests := map_requests s;
     errors := errors s |}.

Definition with_windows (m : gmap Z Window) (s : Server) : Server :=
  {| colormaps := colormaps s; windows := m; stacking := stacking s;
     gcs := gcs s; pixmaps := pixmaps s; map_requests := map_requests s;
     errors := errors s |}.

Definition with_stacking (l : list Z) (s : Server) : Server :=
  {| colormaps := colormaps s; windows := windows s; stacking := l;
     gcs := gcs s; pixmaps := pixmaps s; map_requests := map_requests s;
     errors := errors s |}.

Definition with_gcs (g : gmap Z Z) (s : Server) : Server :=
  {| colormaps := colormaps s; windows := windows s; stacking := stacking s;
     gcs := g; pixmaps := pixmaps s; map_requests := map_requests s;
     errors := errors s |}.

Definition with_map_requests (l : list Z) (s : Server) : Server :=
  {| colormaps := colormaps s; windows := windows s; stacking := stacking s;
     gcs := gcs s; pixmaps := pixmaps s; map_requests := l;
     errors := errors s |}.

Definition set_mapped (b : bool) (w : Window) : Window :=
  {| w_x := w_x w; w_y := w_y w; w_width := w_width w; w_height := w_height w;
     w_border_width := w_border_width w; w_depth := w_depth w;
     w_visual := w_visual w; w_colormap := w_colormap w;
     w_background := w_background w; w_border := w_border w;
     w_override_redirect := w_override_redirect w; w_mapped := b;
     w_name := w_name w; w_bounding := w_bounding w; w_clip := w_clip w;
     w_input := w_input w; w_drawn := w_drawn w |}.

Definition set_name (n : string) (w : Window) : Window :=
  {| w_x := w_x w; w_y := w_y w; w_width := w_width w; w_height := w_height w;
     w_border_width := w_border_width w; w_depth := w_depth w;
     w_visual := w_visual w; w_colormap := w_colormap w;
     w_background := w_background w; w_border := w_border w;
     w_override_redirect := w_override_redirect w; w_mapped := w_mapped w;
     w_name := Some n; w_bounding := w_bounding w; w_clip := w_clip w;
     w_input := w_input w; w_drawn := w_drawn w |}.

Definition set_shapes (b c i : option Region) (w : Window) : Window :=
  {| w_x := w_x w; w_y := w_y w; w_width := w_width w; w_height := w_height w;
     w_border_width := w_border_width w; w_depth := w_depth w;
     w_visual := w_visual w; w_colormap := w_colormap w;
     w_background := w_background w; w_border := w_border w;
     w_override_redirect := w_override_redirect w; w_mapped := w_mapped w;
     w_name := w_name w; w_bounding := b; w_clip := c;
     w_input := i; w_drawn := w_drawn w |}.

Definition add_drawing (d : Drawing) (w : Window) : Window :=
  {| w_x := w_x w; w_y := w_y w; w_width := w_width w; w_height := w_height w;
     w_border_width := w_border_width w; w_depth := w_depth w;
     w_visual := w_visual w; w_colormap := w_colormap w;
     w_background := w_background w; w_border := w_border w;
     w_override_redirect := w_override_redirect w; w_mapped := w_mapped w;
     w_name := w_name w; w_bounding := w_bounding w; w_clip := w_clip w;
     w_input := w_input w; w_drawn := d :: w_drawn w |}.

(** *** Shapes

    Shape extension, section 3: the default bounding and input regions are
    the rectangle of the window including its border, the default clip
    region is the rectangle inside the border; an effective region is the
    client region intersected with the default one, and the effective input
    region is also cut by the bounding region. *)

Definition default_region (w : Window) : Region :=
  Rects [ {| rx := - w_border_width w; ry := - w_border_width w;
             rwidth := w_width w + 2 * w_border_width w;
             rheight := w_height w + 2 * w_border_width w |} ].

Definition default_clip (w : Window) : Region :=
  Rects [ {| rx := 0; ry := 0; rwidth := w_width w; rheight := w_height w |} ].

Definition effective_bounding (w : Window) : Region :=
  match w_bounding w with
  | None => default_region w
  | Some r => Intersect r (default_region w)
  end.

Definition effective_input (w : Window) : Region :=
  Intersect
    match w_input w with
    | None => default_region w
    | Some r => Intersect r (default_region w)
    end
    (effective_bounding w).

Definition client_region (kind : Z) (w : Window) : option Region :=
  if kind =? ShapeBounding then w_bounding w
  else if kind =? ShapeClip then w_clip w
  else w_input w.

Definition default_of (kind : Z) (w : Window) : Region :=
  if kind =? ShapeClip then default_clip w else default_region w.

Definition set_client_region (kind : Z) (r : option Region) (w : Window) : Window :=
  if kind =? ShapeBounding then set_shapes r (w_clip w) (w_input w) w
  else if kind =? ShapeClip then set_shapes (w_bounding w) r (w_input w) w
  else set_shapes (w_bounding w) (w_clip w) r w.

Definition combine (op : Z) (dest src : Region) : Region :=
  if op =? ShapeSet then src
  else if op =? ShapeUnion then Union dest src
  else if op =? ShapeIntersect then Intersect dest src
  else if op =? ShapeSubtract then Subtract dest src
  else Subtract src dest.                                   (* ShapeInvert *)

(** The common part of ShapeRectangles and ShapeMask.  [src = None] is
    ShapeMask's source [None]: the protocol (Shape extension, ShapeMask)
    has the specified client region removed from the window then, so that
    the effective region reverts to the default region; the operation is
    not looked at in that case.  Otherwise the source region, moved by the
    offset, is combined with the existing client region, or with the
    default one when no client region has been specified.  An empty region
    is a source like any other: a rectangle list of length 0. *)
Definition shape_combine (s : Server) (dest destKind op xOff yOff : Z)
    (src : option Region) : Server :=
  match windows s !! dest with
  | None => raise BadWindow s
  | Some w =>
      if negb ((0 <=? destKind) && (destKind <=? ShapeInput) &&
               (0 <=? op) && (op <=? ShapeInvert))
      then raise BadValue s
      else
        match src with
        | None =>
            with_windows (<[dest := set_client_region destKind None w]> (windows s)) s
        | Some r =>
            let old := default (default_of destKind w) (client_region destKind w) in
            let new := combine op old (Translate xOff yOff r) in
            with_windows
              (<[dest := set_client_region destKind (Some new) w]> (windows s)) s
        end
  end.

(** *** Requests *)

Definition has_bit (mask bit : Z) : bool := negb (Z.land mask bit =? 0).

Definition drawable_exists (env : Connection) (s : Server) (d : Z) : bool :=
  (d =? root_window env) || bool_decide (is_Some (windows s !! d)).

Definition draw (env : Connection) (s : Server) (drawable gc : Z)
    (d : Z → Drawing) : Server :=
  match windows s !! drawable with
  | None => if drawable =? root_window env then s else raise BadDrawable s
  | Some w =>
      match gcs s !! gc with
      | None => raise BadGC s
      | Some fg => with_windows (<[drawable := add_drawing (d fg) w]> (windows s)) s
      end
  end.

(** The colormap named in a create request: [CopyFromParent] (0) takes the
    parent's, which needs the parent's visual; any other id must be an
    existing colormap "created for the same visual" (core protocol,
    CreateWindow, else a Match error). *)
Definition check_colormap (env : Connection) (s : Server) (vis cmap : Z)
    : option XError :=
  if cmap =? 0 then
    if vis =? root_visual env then None else Some BadMatch_colormap_visual
  else
    match colormaps s !! cmap with
    | None => Some BadColor
    | Some cv => if cv =? vis then None else Some BadMatch_colormap_visual
    end.

(** Only InputOutput children of the root are modelled: any other parent is
    answered with a Window error and any other class with a Value error.
    CopyFromParent (0) as depth or visual of a create request is not
    modelled either: 0 is looked up like any other depth or visual. *)
Definition serve (env : Connection) (s : Server) (r : Request) : Server :=
  match r with
  | CreateColormap mid window vis alloc =>
      if negb (drawable_exists env s window) then raise BadWindow s
      else if negb (existsb (λ v, visual v =? vis) (screen_visuals env))
      then raise BadMatch_visual s
      else if alloc =? AllocNone then with_colormaps (<[mid := vis]> (colormaps s)) s
      else if negb (alloc =? AllocAll) then raise BadValue s
      else if existsb (λ v, (visual v =? vis) && Z.even (c_class v)) (screen_visuals env)
      then raise BadMatch_alloc s
      else with_colormaps (<[mid := vis]> (colormaps s)) s
  | CreateWindow wid parent x y width height bw dep class vis valuemask attrs =>
      if negb (parent =? root_window env) then raise BadWindow s
      else if negb (class =? InputOutput) then raise BadValue s
      else if (width <=? 0) || (height <=? 0) then raise BadValue s
      else if negb (existsb (λ v, (visual v =? vis) && (depth v =? dep))
                            (screen_visuals env))
      then raise BadMatch_visual s
      else if negb (dep =? root_depth env) &&
              negb (has_bit valuemask CWBorderPixel || has_bit valuemask CWBorderPixmap)
      then raise BadMatch_border s
      else if negb (vis =? root_visual env) && negb (has_bit valuemask CWColormap)
      then raise BadMatch_colormap_needed s
      else
        match (if has_bit valuemask CWColormap
               then check_colormap env s vis (colormap attrs) else None) with
        | Some e => raise e s
        | None =>
            let w :=
              {| w_x := x; w_y := y; w_width := width; w_height := height;
                 w_border_width := bw; w_depth := dep; w_visual := vis;
                 w_colormap :=
                   if has_bit valuemask CWColormap then Some (colormap attrs) else None;
                 w_background :=
                   if has_bit valuemask CWBackPixel
                   then Some (background_pixel attrs) else None;
                 w_border :=
                   if has_bit valuemask CWBorderPixel
                   then Some (border_pixel attrs) else None;
                 w_override_redirect :=
                   has_bit valuemask CWOverrideRedirect &&
                   negb (override_redirect attrs =? 0);
                 w_mapped := false; w_name := None;
                 w_bounding := None; w_clip := None; w_input := None;
                 w_drawn := [] |} in
            with_stacking (wid :: stacking s)
              (with_windows (<[wid := w]> (windows s)) s)
        end
  | ChangeProperty_WM_NAME w name =>
      match windows s !! w with
      | None => if w =? root_window env then s else raise BadWindow s
      | Some win => with_windows (<[w := set_name name win]> (windows s)) s
      end
  | MapWindow w =>
      match windows s !! w with
      | None => if w =? root_window env then s else raise BadWindow s
      | Some win =>
          if w_mapped win then s
          else if window_manager env && negb (w_override_redirect win)
          then with_map_requests (map_requests s ++ [w]) s
          else with_windows (<[w := set_mapped true win]> (windows s)) s
      end
  | UnmapWindow w =>
      match windows s !! w with
      | None => if w =? root_window env then s else raise BadWindow s
      | Some win => with_windows (<[w := set_mapped false win]> (windows s)) s
      end
  | ShapeMask dest destKind op xOff yOff src =>
      if src =? XNone then shape_combine s dest destKind op xOff yOff None
      else
        match pixmaps s !! src with
        | None => raise BadPixmap s
        | Some bits => shape_combine s dest destKind op xOff yOff (Some bits)
        end
  | ShapeRectangles dest destKind op xOff yOff rects =>
      shape_combine s dest destKind op xOff yOff (Some (Rects rects))
  | CreateGC cid drawable valuemask =>
      if drawable_exists env s drawable
      then with_gcs (<[cid := 0]> (gcs s)) s
      else raise BadDrawable s
  | ChangeGC_foreground gc fg =>
      match gcs s !! gc with
      | None => raise BadGC s
      | Some _ => with_gcs (<[gc := fg]> (gcs s)) s
      end
  | PolyFillRectangle drawable gc area =>
      draw env s drawable gc (λ fg, Fill fg area)
  | PolyText8 drawable gc x y str =>
      draw env s drawable gc (λ fg, Text fg x y str)
  end.

Definition serve_all (env : Connection) (s : Server) (rs : list Request) : Server :=
  fold_left (serve env) rs s.

(** *** Where the pointer goes, and what shows *)

Definition window_point (w : Window) (px py : Z) : Z * Z :=
  (px - (w_x w + w_border_width w), py - (w_y w + w_border_width w)).

Definition accepts_pointer (w : Window) (px py : Z) : bool :=
  w_mapped w &&
  contains (effective_input w) (fst (window_point w px py)) (snd (window_point w px py)).

Definition shows_at (w : Window) (px py : Z) : bool :=
  w_mapped w &&
  contains (effective_bounding w) (fst (window_point w px py)) (snd (window_point w px py)).

(** The window of this client that receives a pointer event at screen
    position (px, py): the topmost one whose effective input region holds
    the position.  [None]: the event goes to whatever lies beneath. *)
Definition pointer_window (s : Server) (px py : Z) : option Z :=
  find (λ id, match windows s !! id with
              | Some w => accepts_pointer w px py
              | None => false
              end) (stacking s).

(** ** Xlib and the process *)

Inductive Action :=
| Sent (r : Request)                 (* an Xlib call queued this request *)
| Flushed                            (* XFlush *)
| MissingExtension (name : string)   (* libXext's notice on stderr: no such extension *)
| Slept (seconds : Z)
| Stdout (format : string) (args : list Z)
| Stderr (format : string).

(** The process: the server behind the connection, Xlib's output buffer
    (oldest request first), Xlib's XID counter, and what the process has
    done so far (oldest action first). *)
Record Process := {
  server : Server;
  outbuf : list Request;
  resource_id : Z;
  trace : list Action
}.

Definition start : Process :=
  {| server := initial_server; outbuf := []; resource_id := 0; trace := [] |}.

(** State monad over the process.  The [Display *] every Xlib call takes is
    this state; it is not passed again as an argument. *)
Definition X (A : Type) : Type := Process → A * Process.

Definition ret {A} (a : A) : X A := λ p, (a, p).

Definition bind {A B} (m : X A) (k : A → X B) : X B :=
  λ p, let '(a, p') := m p in k a p'.

Notation "x <- m ;; k" := (bind m (λ x, k))
  (at level 100, m at next level, right associativity).
Notation "m ;; k" := (bind m (λ _, k))
  (at level 100, right associativity).

Definition exec {A} (m : X A) (p : Process) : Process := snd (m p).
Definition result {A} (m : X A) (p : Process) : A := fst (m p).

Definition log (a : Action) : X unit :=
  λ p, (tt, {| server := server p; outbuf := outbuf p;
                resource_id := resource_id p; trace := trace p ++ [a] |}).

Definition send (r : Request) : X unit :=
  λ p, (tt, {| server := server p; outbuf := outbuf p ++ [r];
                resource_id := resource_id p; trace := trace p ++ [Sent r] |}).

Definition sleep (seconds : Z) : X unit := log (Slept seconds).
Definition printf (format : string) (args : list Z) : X unit := log (Stdout format args).
Definition fprintf_stderr (format : string) : X unit := log (Stderr format).

Section Xlib.

Context (env : Connection).

Definition XAllocID : X Z :=
  λ p, (resource_base env + resource_id p,
        {| server := server p; outbuf := outbuf p;
           resource_id := resource_id p + 1; trace := trace p |}).

(** [true] for a non-NULL display. *)
Definition XOpenDisplay : X bool := ret (display_available env).

Definition DefaultScreen : Z := 0.
Definition RootWindow (screen : Z) : Z := root_window env.
Definition DisplayWidth (screen : Z) : Z := width_in_pixels env.

(** Returns the status and the contents of [*vinfo_return] after the call:
    the first visual of that depth and class, or, with status 0, whatever
    the caller's structure held before. *)
Definition XMatchVisualInfo (screen dep class : Z) (vinfo : XVisualInfo)
    : X (Z * XVisualInfo) :=
  ret match find (λ v, (depth v =? dep) && (c_class v =? class)) (screen_visuals env) with
      | Some v => (1, v)
      | None => (0, vinfo)
      end.

Definition XCreateColormap (w vis alloc : Z) : X Z :=
  mid <- XAllocID;;
  send (CreateColormap mid w vis alloc);;
  ret mid.

Definition XCreateWindow (parent x y width height border_width dep class vis
    valuemask : Z) (attributes : XSetWindowAttributes) : X Z :=
  wid <- XAllocID;;
  send (CreateWindow wid parent x y width height border_width dep class vis
          valuemask attributes);;
  ret wid.

Definition XStoreName (w : Z) (name : string) : X unit :=
  send (ChangeProperty_WM_NAME w name).

Definition XMapWindow (w : Z) : X unit := send (MapWindow w).

(** The server takes the buffered requests in order.  The errors it
    generates are kept at the server: how they travel back to Xlib and what
    Xlib's error handler does with them is not modelled, so of a run in
    which a request is refused only the requests and the server's state are
    described. *)
Definition XFlush : X unit :=
  λ p, (tt, {| server := serve_all env (server p) (outbuf p); outbuf := [];
                resource_id := resource_id p; trace := trace p ++ [Flushed] |}).

(** libXext checks for the extension first and, when the server has none,
    calls XMissingExtension and returns without a request; the function is
    [void] either way. *)
Definition XShapeCombineMask (dest destKind xOff yOff src op : Z) : X unit :=
  if shape_extension env
  then send (ShapeMask dest destKind op xOff yOff src)
  else log (MissingExtension "SHAPE").

(** Called with value mask 0 and a NULL value list. *)
Definition XCreateGC (d valuemask : Z) : X Z :=
  cid <- XAllocID;;
  send (CreateGC cid d valuemask);;
  ret cid.

(** Xlib caches the change and sends it ahead of the next drawing request
    with this GC; in [main] that is the very next call. *)
Definition XSetForeground (gc foreground : Z) : X unit :=
  send (ChangeGC_foreground gc foreground).

Definition XFillRectangle (d gc x y width height : Z) : X unit :=
  send (PolyFillRectangle d gc
          {| rx := x; ry := y; rwidth := width; rheight := height |}).

Definition XDrawString (d gc x y : Z) (s : string) (len : Z) : X unit :=
  send (PolyText8 d gc x y (String.substring 0 (Z.to_nat len) s)).

(** ** The program *)

(** Line 26.  The status is dropped; [vinfo] is the uninitialised local of
    line 12, whose contents stay as they were when nothing matches. *)
Definition selectAlphaVisual (screen : Z) (vinfo : XVisualInfo) : X XVisualInfo :=
  r <- XMatchVisualInfo screen 32 TrueColor vinfo;;
  ret (snd r).

(** Lines 29 to 48.  Returns the window and the geometry of lines 35 to 37. *)
Definition createWindow (screen root : Z) (vinfo : XVisualInfo)
    : X (Z * (Z * Z * Z * Z)) :=
  cmap <- XCreateColormap root (visual vinfo) AllocNone;;
  let attrs := {| colormap := cmap; background_pixel := 0; border_pixel := 0;
                  override_redirect := XTrue |} in
  let width := 200 in
  let height := 200 in
  let x := int_sub (int_sub (DisplayWidth screen) width) 50 in
  let y := 50 in
  window <- XCreateWindow root x y width height 0 (depth vinfo) InputOutput
              (visual vinfo)
              (Z.lor (Z.lor (Z.lor CWColormap CWBackPixel) CWBorderPixel)
                     CWOverrideRedirect)
              attrs;;
  XStoreName window "C ClickThrough Test";;
  ret (window, (x, y, width, height)).

(** Lines 51 to 58. *)
Definition show (window : Z) (geometry : Z * Z * Z * Z) : X unit :=
  let '(x, y, width, height) := geometry in
  XMapWindow window;;
  XFlush;;
  printf "Window created at (%d, %d) size %dx%d\n" [x; y; width; height];;
  printf "Window ID: 0x%lx\n" [window];;
  sleep 1.

(** Lines 61 to 73. *)
Definition setClickThrough (window : Z) : X unit :=
  printf "Applying click-through with Shape extension...\n" [];;
  XShapeCombineMask window ShapeInput 0 0 XNone ShapeSet;;
  XFlush;;
  printf "Click-through applied - input shape removed\n" [].

(** Lines 76 to 83. *)
Definition paint (window width height : Z) : X unit :=
  gc <- XCreateGC window 0;;
  XSetForeground gc 0xFFFF0000;;
  XFillRectangle window gc 0 0 width height;;
  XSetForeground gc 0xFFFFFFFF;;
  XDrawString window gc 50 100 "Click Through Test" 18;;
  XFlush.

(** Lines 89 to 91: [while (1) sleep(1)].  The loop has no exit; [fuel]
    bounds how many rounds are looked at, and the answer is [None]: the
    process is still running. *)
Fixpoint keep_alive (fuel : nat) : X (option Z) :=
  match fuel with
  | O => ret None
  | S n => sleep 1;; keep_alive n
  end.

(** [main].  [vinfo0] is what the stack held where [vinfo] lives.  The
    result is the exit status, or [None] while the process runs; lines 93
    and 94 are unreachable. *)
Definition main (vinfo0 : XVisualInfo) (fuel : nat) : X (option Z) :=
  display <- XOpenDisplay;;
  if negb display then
    fprintf_stderr "Cannot open display\n";;
    ret (Some 1)
  else
    let screen := DefaultScreen in
    let root := RootWindow screen in
    vinfo <- selectAlphaVisual screen vinfo0;;
    created <- createWindow screen root vinfo;;
    let '(window, (x, y, width, height)) := created in
    show window (x, y, width, height);;
    setClickThrough window;;
    paint window width height;;
    printf "Window should be visible and click-through\n" [];;
    printf "Press Ctrl+C to exit\n" [];;
    keep_alive fuel.

End Xlib.

(** ** Reading a run *)

(** The setup of [main] once the display is open, stopped after [show],
    after [setClickThrough] and after [paint]; the value is the window with
    its geometry. *)
Definition upto_show (env : Connection) (vinfo0 : XVisualInfo)
    : X (Z * (Z * Z * Z * Z)) :=
  vinfo <- selectAlphaVisual env DefaultScreen vinfo0;;
  created <- createWindow env DefaultScreen (RootWindow env DefaultScreen) vinfo;;
  show env (fst created) (snd created);;
  ret created.

Definition upto_clickthrough (env : Connection) (vinfo0 : XVisualInfo)
    : X (Z * (Z * Z * Z * Z)) :=
  created <- upto_show env vinfo0;;
  setClickThrough env (fst created);;
  ret created.

Definition upto_paint (env : Connection) (vinfo0 : XVisualInfo)
    : X (Z * (Z * Z * Z * Z)) :=
  created <- upto_clickthrough env vinfo0;;
  paint env (fst created) (snd (fst (snd created))) (snd (snd created));;
  ret created.

(** Xlib hands out XIDs in order: the colormap gets the first, the window
    the second, the graphics context the third. *)
Definition overlay_colormap (env : Connection) : Z := resource_base env + 0.
Definition overlay (env : Connection) : Z := resource_base env + 1.
Definition overlay_gc (env : Connection) : Z := resource_base env + 2.

(** What [XMatchVisualInfo] leaves in [vinfo]. *)
Definition vinfo_after (env : Connection) (vinfo0 : XVisualInfo) : XVisualInfo :=
  match find (λ v, (depth v =? 32) && (c_class v =? TrueColor)) (screen_visuals env) with
  | Some v => v
  | None => vinfo0
  end.

(** The requests of a trace, in the order Xlib queued them. *)
Definition requests (tr : list Action) : list Request :=
  omap (λ a, match a with Sent r => Some r | _ => None end) tr.



Definition created_geometry (r : Request) : option (Z * Z * Z * Z) :=
  match r with
  | CreateWindow _ _ x y width height _ _ _ _ _ _ => Some (x, y, width, height)
  | _ => None
  end.

(** The three groups of requests [main] queues, as they will be read off
    its trace. *)
Definition window_batch (env : Connection) (vinfo0 : XVisualInfo) : list Request :=
  [ CreateColormap (overlay_colormap env) (root_window env)
      (visual (vinfo_after env vinfo0)) AllocNone;
    CreateWindow (overlay env) (root_window env)
      (int_sub (int_sub (width_in_pixels env) 200) 50) 50 200 200 0
      (depth (vinfo_after env vinfo0)) InputOutput (visual (vinfo_after env vinfo0))
      (Z.lor (Z.lor (Z.lor CWColormap CWBackPixel) CWBorderPixel) CWOverrideRedirect)
      {| colormap := overlay_colormap env; background_pixel := 0;
         border_pixel := 0; override_redirect := XTrue |};
    ChangeProperty_WM_NAME (overlay env) "C ClickThrough Test";
    MapWindow (overlay env) ].

Definition shape_batch (env : Connection) : list Request :=
  if shape_extension env
  then [ ShapeMask (overlay env) ShapeInput ShapeSet 0 0 XNone ]
  else [].

Definition paint_batch (env : Connection) : list Request :=
  [ CreateGC (overlay_gc env) (overlay env) 0;
    ChangeGC_foreground (overlay_gc env) 0xFFFF0000;
    PolyFillRectangle (overlay env) (overlay_gc env)
      {| rx := 0; ry := 0; rwidth := 200; rheight := 200 |};
    ChangeGC_foreground (overlay_gc env) 0xFFFFFFFF;
    PolyText8 (overlay env) (overlay_gc env) 50 100 "Click Through Test" ].

Definition show_trace (env : Connection) (vinfo0 : XVisualInfo) : list Action :=
  map Sent (window_batch env vinfo0) ++
  [ Flushed;
    Stdout "Window created at (%d, %d) size %dx%d\n"
      [int_sub (int_sub (width_in_pixels env) 200) 50; 50; 200; 200];
    Stdout "Window ID: 0x%lx\n" [overlay env];
    Slept 1 ].

Definition clickthrough_trace (env : Connection) : list Action :=
  [ Stdout "Applying click-through with Shape extension...\n" [] ] ++
  (if shape_extension env
   then [ Sent (ShapeMask (overlay env) ShapeInput ShapeSet 0 0 XNone) ]
   else [ MissingExtension "SHAPE" ]) ++
  [ Flushed;
    Stdout "Click-through applied - input shape removed\n" [] ].

Definition paint_trace (env : Connection) : list Action :=
  map Sent (paint_batch env) ++ [ Flushed ].

(** The overlay as the server holds it once the create request has gone
    through with visual [v]. *)
Definition overlay_window (env : Connection) (v : XVisualInfo) (mapped : bool)
    (drawn : list Drawing) : Window :=
  {| w_x := int_sub (int_sub (width_in_pixels env) 200) 50; w_y := 50;
     w_width := 200; w_height := 200; w_border_width := 0;
     w_depth := depth v; w_visual := visual v;
     w_colormap := Some (overlay_colormap env);
     w_background := Some 0; w_border := Some 0;
     w_override_redirect := true; w_mapped := mapped;
     w_name := Some "C ClickThrough Test";
     w_bounding := None; w_clip := None; w_input := None;
     w_drawn := drawn |}.

(** ** Example environments *)

(** A 1920-pixel-wide screen with a 24-bit root visual, a 32-bit TrueColor
    visual, the SHAPE extension and a window manager. *)
Definition env0 : Connection :=
  {| display_available := true; root_window := 0x1e5; root_depth := 24;
     root_visual := 0x21; width_in_pixels := 1920;
     screen_visuals :=
       [ {| visual := 0x21; depth := 24; c_class := TrueColor |};
         {| visual := 0x5f; depth := 32; c_class := TrueColor |} ];
     shape_extension := true; window_manager := true;
     resource_base := 0x2000000 |}.

(** The same server without a 32-bit visual. *)
Definition env_no_alpha : Connection :=
  {| display_available := true; root_window := 0x1e5; root_depth := 24;
     root_visual := 0x21; width_in_pixels := 1920;
     screen_visuals := [ {| visual := 0x21; depth := 24; c_class := TrueColor |} ];
     shape_extension := true; window_manager := true;
     resource_base := 0x2000000 |}.

(** The same server without the SHAPE extension. *)
Definition env_no_shape : Connection :=
  {| display_available := true; root_window := 0x1e5; root_depth := 24;
     root_visual := 0x21; width_in_pixels := 1920;
     screen_visuals :=
       [ {| visual := 0x21; depth := 24; c_class := TrueColor |};
         {| visual := 0x5f; depth := 32; c_class := TrueColor |} ];
     shape_extension := false; window_manager := true;
     resource_base := 0x2000000 |}.

(** Some contents for the uninitialised [vinfo]. *)
Definition stack_garbage : XVisualInfo :=
  {| visual := 0xdead; depth := 7; c_class := 9 |}.

(** ** Vocabulary of the statements *)

(** The server once the setup has run against a server that has a 32-bit
    TrueColor visual [v]. *)
Definition after_show (env : Connection) (v : XVisualInfo) : Server :=
  {| colormaps := {[ overlay_colormap env := visual v ]};
     windows := {[ overlay env := overlay_window env v true [] ]};
     stacking := [overlay env]; gcs := ∅; pixmaps := ∅;
     map_requests := []; errors := [] |}.

Definition after_paint (env : Connection) (v : XVisualInfo) : Server :=
  {| colormaps := {[ overlay_colormap env := visual v ]};
     windows :=
       {[ overlay env :=
            overlay_window env v true
              [ Text 0xFFFFFFFF 50 100 "Click Through Test";
                Fill 0xFFFF0000 {| rx := 0; ry := 0; rwidth := 200; rheight := 200 |} ] ]};
     stacking := [overlay env]; gcs := {[ overlay_gc env := 0xFFFFFFFF ]};
     pixmaps := ∅; map_requests := []; errors := [] |}.

(** The requests painting is made of: graphics contexts and drawing. *)
Definition is_drawing (r : Request) : bool :=
  match r with
  | CreateGC _ _ _ | ChangeGC_foreground _ _
  | PolyFillRectangle _ _ _ | PolyText8 _ _ _ _ _ => true
  | _ => false
  end.

(** All that decides where the pointer goes: position, size, border, map
    state and the two client regions that bound input. *)
Definition input_view (w : Window)
    : Z * Z * Z * Z * Z * bool * option Region * option Region :=
  (w_x w, w_y w, w_width w, w_height w, w_border_width w, w_mapped w,
   w_bounding w, w_input w).

(** The stacking order and every window's input view are the same in [s']
    as in [s]. *)
Definition input_unchanged (s s' : Server) : Prop :=
  stacking s' = stacking s ∧
  ∀ id, input_view <$> windows s' !! id = input_view <$> windows s !! id.

(** What "the input shape is left as it was" comes to. *)
Definition input_frame (s s' : Server) : Prop :=
  input_unchanged s s' ∧
  (∀ px py, pointer_window s' px py = pointer_window s px py) ∧
  (∀ id w, windows s !! id = Some w → region_empty (effective_input w) →
     ∃ w', windows s' !! id = Some w' ∧ region_empty (effective_input w') ∧
           ∀ px py, pointer_window s' px py ≠ Some id).

(** A create request whose colormap the server will not refuse for having
    another visual than the window. *)
Definition colormap_consistent (env : Connection) (s : Server) (r : Request) : Prop :=
  match r with
  | CreateWindow _ _ _ _ _ _ _ _ _ vis _ attrs =>
      check_colormap env s vis (colormap attrs) ≠ Some BadMatch_colormap_visual
  | _ => True
  end.

Definition creates_window (r : Request) : bool :=
  match r with
  | CreateWindow _ _ _ _ _ _ _ _ _ _ _ _ => true
  | _ => false
  end.

(** The phases of a window handle, and what each says of the window as the
    server holds it: Unborn, the server has no such window; Created, it
    exists and is not mapped; Mapped, it is mapped, takes pointer input and
    has no content yet; ClickThroughApplied, it is mapped, its input region
    is empty and it has no content yet; Painted, it is mapped, its input
    region is empty and content has been drawn. *)
Inductive Phase := Unborn | Created | Mapped | ClickThroughApplied | Painted.

Definition in_phase (s : Server) (w : Z) (ph : Phase) : Prop :=
  match ph with
  | Unborn => windows s !! w = None
  | Created => ∃ win, windows s !! w = Some win ∧ w_mapped win = false
  | Mapped =>
      ∃ win, windows s !! w = Some win ∧ w_mapped win = true ∧
             ¬ region_empty (effective_input win) ∧ w_drawn win = []
  | ClickThroughApplied =>
      ∃ win, windows s !! w = Some win ∧ w_mapped win = true ∧
             region_empty (effective_input win) ∧ w_drawn win = []
  | Painted =>
      ∃ win, windows s !! w = Some win ∧ w_mapped win = true ∧
             region_empty (effective_input win) ∧ w_drawn win ≠ []
  end.

Definition is_unmap (r : Request) : bool :=
  match r with UnmapWindow _ => true | _ => false end.

Definition is_stderr (a : Action) : bool :=
  match a with Stderr _ => true | _ => false end.

(** The program itself reports a failure: [main] returns a non-zero status
    or the program's own code writes to stderr.  A notice that Xlib prints
    on its own account ([MissingExtension]) is a separate action and is not
    counted here. *)
Definition reports_failure (status : option Z) (tr : list Action) : Prop :=
  (∃ code, status = Some code ∧ code ≠ 0) ∨ existsb is_stderr tr = true.

(** The screen rectangle of the overlay. *)
Definition overlay_rect (env : Connection) : XRectangle :=
  {| rx := int_sub (int_sub (width_in_pixels env) 200) 50; ry := 50;
     rwidth := 200; rheight := 200 |}.

(** The requests of the Shape extension. *)
Definition is_shape (r : Request) : bool :=
  match r with
  | ShapeMask _ _ _ _ _ _ | ShapeRectangles _ _ _ _ _ _ => true
  | _ => false
  end.

(** A machine on which no X server can be reached. *)
Definition env_no_display : Connection :=
  {| display_available := false; root_window := 0; root_depth := 0;
     root_visual := 0; width_in_pixels := 0; screen_visuals := [];
     shape_extension := false; window_manager := false; resource_base := 0 |}.

(** The console output of a trace: the printf calls with their arguments. *)
Definition stdout (tr : list Action) : list (string * list Z) :=
  omap (λ a, match a with Stdout format args => Some (format, args) | _ => None end) tr.

(** * Proofs *)

Ltac xlib_unfold :=
  unfold upto_paint, upto_clickthrough, upto_show, paint, setClickThrough,
    show, createWindow, selectAlphaVisual, XMatchVisualInfo, XCreateColormap,
    XCreateWindow, XStoreName, XMapWindow, XShapeCombineMask, XCreateGC,
    XSetForeground, XFillRectangle, XDrawString, XAllocID, XFlush, sleep,
    printf, fprintf_stderr, send, log, exec, result, bind, ret,
    DefaultScreen, RootWindow, DisplayWidth.

(** ** The shape of a run *)

Lemma keep_alive_run fuel p :
  keep_alive fuel p =
  (None, {| server := server p; outbuf := outbuf p; resource_id := resource_id p;
            trace := trace p ++ repeat (Slept 1) fuel |}).
Proof.
  revert p. induction fuel as [|n IH]; intros p.
  - destruct p. cbn. by rewrite app_nil_r.
  - cbn [keep_alive]. unfold bind, sleep, log. rewrite IH. cbn.
    by rewrite <- app_assoc.
Qed.

Lemma main_open env vinfo0 fuel p :
  display_available env = true →
  main env vinfo0 fuel p =
  keep_alive fuel
    (exec (printf "Press Ctrl+C to exit\n" [])
       (exec (printf "Window should be visible and click-through\n" [])
          (exec (upto_paint env vinfo0) p))).
Proof.
  intros Hd. unfold main, XOpenDisplay, bind at 1, ret at 1. rewrite Hd.
  cbn [negb].
  unfold upto_paint, upto_clickthrough, upto_show, exec, bind, ret.
  destruct (selectAlphaVisual env DefaultScreen vinfo0 p) as [vi p1].
  destruct (createWindow env DefaultScreen (RootWindow env DefaultScreen) vi p1)
    as [[w [[[x y] wd] ht]] p2].
  cbn [fst snd].
  destruct (show env w (x, y, wd, ht) p2) as [[] p3]. cbn [fst snd].
  destruct (setClickThrough env w p3) as [[] p4]. cbn [fst snd].
  destruct (paint env w wd ht p4) as [[] p5]. cbn [fst snd].
  destruct (printf _ [] p5) as [[] p6]. cbn [fst snd].
  destruct (printf _ [] p6) as [[] p7]. reflexivity.
Qed.

Lemma main_closed env vinfo0 fuel p :
  display_available env = false →
  main env vinfo0 fuel p = (Some 1, exec (fprintf_stderr "Cannot open display\n") p).
Proof.
  intros Hd. unfold main, XOpenDisplay, bind at 1, ret at 1. rewrite Hd.
  reflexivity.
Qed.

Lemma upto_show_run env vinfo0 :
  upto_show env vinfo0 start =
  ((overlay env, (int_sub (int_sub (width_in_pixels env) 200) 50, 50, 200, 200)),
   {| server := serve_all env initial_server (window_batch env vinfo0);
      outbuf := []; resource_id := 2; trace := show_trace env vinfo0 |}).
Proof.
  unfold show_trace, window_batch, vinfo_after. xlib_unfold.
  destruct (find _ (screen_visuals env)); reflexivity.
Qed.

Lemma setClickThrough_run env window p :
  outbuf p = [] →
  setClickThrough env window p =
  (tt, {| server :=
            serve_all env (server p)
              (if shape_extension env
               then [ ShapeMask window ShapeInput ShapeSet 0 0 XNone ] else []);
          outbuf := []; resource_id := resource_id p;
          trace :=
            trace p ++
            [ Stdout "Applying click-through with Shape extension...\n" [] ] ++
            (if shape_extension env
             then [ Sent (ShapeMask window ShapeInput ShapeSet 0 0 XNone) ]
             else [ MissingExtension "SHAPE" ]) ++
            [ Flushed;
              Stdout "Click-through applied - input shape removed\n" [] ] |}).
Proof.
  intros Hb. xlib_unfold. destruct (shape_extension env); cbn -[serve_all];
    rewrite Hb; cbn -[serve_all]; repeat rewrite <- app_assoc; reflexivity.
Qed.

Lemma paint_run env window width height p :
  outbuf p = [] →
  paint env window width height p =
  (tt, let gc := resource_base env + resource_id p in
       let batch :=
         [ CreateGC gc window 0;
           ChangeGC_foreground gc 0xFFFF0000;
           PolyFillRectangle window gc
             {| rx := 0; ry := 0; rwidth := width; rheight := height |};
           ChangeGC_foreground gc 0xFFFFFFFF;
           PolyText8 window gc 50 100 "Click Through Test" ] in
       {| server := serve_all env (server p) batch;
          outbuf := []; resource_id := resource_id p + 1;
          trace := trace p ++ map Sent batch ++ [ Flushed ] |}).
Proof.
  intros Hb. xlib_unfold. cbn -[serve_all]. rewrite Hb. cbn -[serve_all].
  repeat rewrite <- app_assoc. reflexivity.
Qed.

Lemma upto_clickthrough_run env vinfo0 :
  upto_clickthrough env vinfo0 start =
  ((overlay env, (int_sub (int_sub (width_in_pixels env) 200) 50, 50, 200, 200)),
   {| server :=
        serve_all env (serve_all env initial_server (window_batch env vinfo0))
          (shape_batch env);
      outbuf := []; resource_id := 2;
      trace := show_trace env vinfo0 ++ clickthrough_trace env |}).
Proof.
  unfold upto_clickthrough, bind. rewrite upto_show_run. cbn [fst snd].
  rewrite setClickThrough_run by reflexivity. reflexivity.
Qed.

Lemma upto_paint_run env vinfo0 :
  upto_paint env vinfo0 start =
  ((overlay env, (int_sub (int_sub (width_in_pixels env) 200) 50, 50, 200, 200)),
   {| server :=
        serve_all env
          (serve_all env (serve_all env initial_server (window_batch env vinfo0))
             (shape_batch env))
          (paint_batch env);
      outbuf := []; resource_id := 3;
      trace := show_trace env vinfo0 ++ clickthrough_trace env ++ paint_trace env |}).
Proof.
  unfold upto_paint, bind. rewrite upto_clickthrough_run. cbn [fst snd].
  rewrite paint_run by reflexivity. unfold clickthrough_trace, ret.
  destruct (shape_extension env); reflexivity.
Qed.

(** ** The server on the window batch *)

Lemma matched_supported env v :
  find (λ v, (depth v =? 32) && (c_class v =? TrueColor)) (screen_visuals env) = Some v →
  depth v = 32 ∧ c_class v = TrueColor ∧
  existsb (λ v', visual v' =? visual v) (screen_visuals env) = true ∧
  existsb (λ v', (visual v' =? visual v) && (depth v' =? depth v)) (screen_visuals env) = true.
Proof.
  intros Hf. apply find_some in Hf as [Hin Hv].
  apply andb_prop in Hv as [Hd Hc]. apply Z.eqb_eq in Hd, Hc.
  repeat split; [done | done | |]; apply existsb_exists; exists v;
    rewrite ?Z.eqb_refl; done.
Qed.

Lemma serve_CreateColormap_root env s mid vis :
  existsb (λ v', visual v' =? vis) (screen_visuals env) = true →
  serve env s (CreateColormap mid (root_window env) vis AllocNone) =
  with_colormaps (<[mid := vis]> (colormaps s)) s.
Proof.
  intros Hv. cbn [serve]. unfold drawable_exists.
  rewrite Z.eqb_refl, Hv. reflexivity.
Qed.

Lemma serve_CreateWindow_overlay env s wid x y vis dep cmap :
  existsb (λ v', (visual v' =? vis) && (depth v' =? dep)) (screen_visuals env) = true →
  cmap ≠ 0 →
  colormaps s !! cmap = Some vis →
  serve env s
    (CreateWindow wid (root_window env) x y 200 200 0 dep InputOutput vis
       (Z.lor (Z.lor (Z.lor CWColormap CWBackPixel) CWBorderPixel) CWOverrideRedirect)
       {| colormap := cmap; background_pixel := 0; border_pixel := 0;
          override_redirect := XTrue |}) =
  with_stacking (wid :: stacking s)
    (with_windows
       (<[wid := {| w_x := x; w_y := y; w_width := 200; w_height := 200;
                    w_border_width := 0; w_depth := dep; w_visual := vis;
                    w_colormap := Some cmap; w_background := Some 0;
                    w_border := Some 0; w_override_redirect := true;
                    w_mapped := false; w_name := None; w_bounding := None;
                    w_clip := None; w_input := None; w_drawn := [] |}]>
          (windows s)) s).
Proof.
  intros Hv Hc Hl. cbn [serve]. rewrite Z.eqb_refl, Hv.
  change (has_bit _ CWBorderPixel) with true.
  change (has_bit _ CWColormap) with true.
  change (has_bit _ CWBackPixel) with true.
  change (has_bit _ CWOverrideRedirect) with true.
  cbn [negb orb andb colormap background_pixel border_pixel override_redirect].
  rewrite !andb_false_r. unfold check_colormap.
  destruct (Z.eqb_spec cmap 0) as [|_]; [done|].
  rewrite Hl, !Z.eqb_refl. reflexivity.
Qed.

Lemma window_batch_served env vinfo0 v :
  find (λ v, (depth v =? 32) && (c_class v =? TrueColor)) (screen_visuals env) = Some v →
  resource_base env ≠ 0 →
  serve_all env initial_server (window_batch env vinfo0) =
  {| colormaps := {[ overlay_colormap env := visual v ]};
     windows := {[ overlay env := overlay_window env v true [] ]};
     stacking := [overlay env]; gcs := ∅; pixmaps := ∅;
     map_requests := []; errors := [] |}.
Proof.
  intros Hf Hb. destruct (matched_supported env v Hf) as (Hd & Hc & Hv & Hvd).
  unfold window_batch, vinfo_after, serve_all. rewrite Hf.
  cbn [fold_left].
  rewrite serve_CreateColormap_root by done.
  erewrite serve_CreateWindow_overlay; [| done | unfold overlay_colormap; lia
                                        | apply lookup_insert_eq ].
  cbn [serve with_stacking with_windows with_colormaps windows colormaps stacking
       gcs pixmaps map_requests errors initial_server].
  rewrite lookup_insert_eq.
  cbn [serve with_stacking with_windows with_colormaps windows colormaps stacking
       gcs pixmaps map_requests errors initial_server].
  rewrite lookup_insert_eq.
  cbn [w_mapped set_name w_override_redirect negb]. rewrite andb_false_r.
  cbn [serve with_stacking with_windows with_colormaps windows colormaps stacking
       gcs pixmaps map_requests errors initial_server].
  rewrite !insert_insert_eq. reflexivity.
Qed.

(** ** The server on a shape request with source None *)

Lemma ShapeMask_None_served env s w win kind op xOff yOff :
  windows s !! w = Some win →
  0 ≤ kind ≤ ShapeInput →
  0 ≤ op ≤ ShapeInvert →
  serve env s (ShapeMask w kind op xOff yOff XNone) =
  with_windows (<[w := set_client_region kind None win]> (windows s)) s.
Proof.
  intros Hw Hk Ho. cbn [serve]. change (XNone =? XNone) with true. cbn iota.
  unfold shape_combine. rewrite Hw.
  destruct (Z.leb_spec 0 kind); [|lia].
  destruct (Z.leb_spec kind ShapeInput); [|lia].
  destruct (Z.leb_spec 0 op); [|lia].
  destruct (Z.leb_spec op ShapeInvert); [|lia].
  reflexivity.
Qed.

Lemma set_input_None_id win :
  w_input win = None → set_client_region ShapeInput None win = win.
Proof. intros H. destruct win; cbn in *. by subst. Qed.

Lemma shape_batch_served env v s :
  windows s = {[ overlay env := overlay_window env v true [] ]} →
  serve_all env s (shape_batch env) = s.
Proof.
  intros Hw. unfold shape_batch. destruct (shape_extension env); [|done].
  cbn [serve_all fold_left].
  erewrite ShapeMask_None_served;
    [| rewrite Hw; apply lookup_singleton_eq
     | by compute | by compute ].
  rewrite set_input_None_id by done.
  rewrite Hw, insert_singleton_eq. destruct s; cbn in *. by subst.
Qed.

Lemma serve_CreateGC_window env s cid d mask w :
  windows s !! d = Some w →
  serve env s (CreateGC cid d mask) = with_gcs (<[cid := 0]> (gcs s)) s.
Proof.
  intros Hw. cbn [serve]. unfold drawable_exists.
  by rewrite Hw, bool_decide_eq_true_2, orb_true_r by eauto.
Qed.

Lemma serve_ChangeGC_known env s gc fg old :
  gcs s !! gc = Some old →
  serve env s (ChangeGC_foreground gc fg) = with_gcs (<[gc := fg]> (gcs s)) s.
Proof. intros Hg. cbn [serve]. by rewrite Hg. Qed.

Lemma draw_known env s d gc w fg f :
  windows s !! d = Some w →
  gcs s !! gc = Some fg →
  draw env s d gc f = with_windows (<[d := add_drawing (f fg) w]> (windows s)) s.
Proof. intros Hw Hg. unfold draw. by rewrite Hw, Hg. Qed.

Lemma serve_all_cons env s r rs :
  serve_all env s (r :: rs) = serve_all env (serve env s r) rs.
Proof. reflexivity. Qed.

Lemma paint_batch_served env v s :
  windows s = {[ overlay env := overlay_window env v true [] ]} →
  gcs s = ∅ →
  serve_all env s (paint_batch env) =
  with_gcs {[ overlay_gc env := 0xFFFFFFFF ]}
    (with_windows
       {[ overlay env :=
            overlay_window env v true
              [ Text 0xFFFFFFFF 50 100 "Click Through Test";
                Fill 0xFFFF0000 {| rx := 0; ry := 0; rwidth := 200; rheight := 200 |} ] ]}
       s).
Proof.
  intros Hw Hg. destruct s as [cm ws st gc pm mr er]. cbn in Hw, Hg. subst ws gc.
  unfold paint_batch.
  rewrite serve_all_cons.
  erewrite serve_CreateGC_window by apply lookup_singleton_eq.
  cbn [with_gcs gcs windows colormaps stacking pixmaps map_requests errors].
  rewrite serve_all_cons.
  erewrite serve_ChangeGC_known by apply lookup_insert_eq.
  cbn [with_gcs gcs windows colormaps stacking pixmaps map_requests errors].
  rewrite ?insert_insert_eq, ?insert_singleton_eq, ?insert_empty, serve_all_cons.
  cbn [serve]. erewrite draw_known;
    [| cbn [windows]; apply lookup_singleton_eq | cbn [gcs]; apply lookup_insert_eq ].
  cbn [with_windows gcs windows colormaps stacking pixmaps map_requests errors].
  rewrite ?insert_insert_eq, ?insert_singleton_eq, ?insert_empty, serve_all_cons.
  erewrite serve_ChangeGC_known by apply lookup_insert_eq.
  cbn [with_gcs gcs windows colormaps stacking pixmaps map_requests errors].
  rewrite ?insert_insert_eq, ?insert_singleton_eq, ?insert_empty, serve_all_cons.
  cbn [serve]. erewrite draw_known;
    [| cbn [windows]; apply lookup_singleton_eq | cbn [gcs]; apply lookup_insert_eq ].
  cbn [with_windows with_gcs gcs windows colormaps stacking pixmaps map_requests errors].
  rewrite ?insert_insert_eq, ?insert_singleton_eq, ?insert_empty. reflexivity.
Qed.

Section Matched.

Context (env : Connection) (vinfo0 v : XVisualInfo).
Hypothesis Hmatch :
  find (λ v, (depth v =? 32) && (c_class v =? TrueColor)) (screen_visuals env) = Some v.
Hypothesis Hbase : resource_base env ≠ 0.

Lemma server_after_show :
  server (exec (upto_show env vinfo0) start) = after_show env v.
Proof.
  unfold exec. rewrite upto_show_run. cbn [snd server].
  by apply window_batch_served.
Qed.

Lemma server_after_clickthrough :
  server (exec (upto_clickthrough env vinfo0) start) = after_show env v.
Proof.
  unfold exec. rewrite upto_clickthrough_run. cbn [snd server].
  rewrite (window_batch_served env vinfo0 v) by done.
  by apply (shape_batch_served env v).
Qed.

Lemma server_after_paint :
  server (exec (upto_paint env vinfo0) start) = after_paint env v.
Proof.
  unfold exec. rewrite upto_paint_run. cbn [snd server].
  rewrite (window_batch_served env vinfo0 v) by done.
  rewrite (shape_batch_served env v) by done.
  by rewrite (paint_batch_served env v).
Qed.

End Matched.

(** ** Drawing requests and the input shape *)

Lemma input_unchanged_refl s : input_unchanged s s.
Proof. by split. Qed.

Lemma input_unchanged_trans s1 s2 s3 :
  input_unchanged s1 s2 → input_unchanged s2 s3 → input_unchanged s1 s3.
Proof.
  intros [H1 H2] [H3 H4]. split; [congruence|].
  intros id. by rewrite H4, H2.
Qed.

Lemma input_view_effective w w' :
  input_view w' = input_view w →
  effective_input w' = effective_input w ∧
  ∀ px py, accepts_pointer w' px py = accepts_pointer w px py.
Proof.
  destruct w, w'. unfold input_view. cbn. intros [= -> -> -> -> -> -> -> ->].
  done.
Qed.

Lemma input_unchanged_pointer s s' :
  input_unchanged s s' →
  ∀ px py, pointer_window s' px py = pointer_window s px py.
Proof.
  intros [Hst Hv] px py. unfold pointer_window. rewrite Hst.
  generalize (stacking s) as l. induction l as [|id l IH]; [done|].
  cbn [find]. rewrite IH. specialize (Hv id).
  destruct (windows s' !! id) as [w'|], (windows s !! id) as [w|];
    cbn in Hv; try done.
  assert (input_view w' = input_view w) as Hv' by congruence.
  by rewrite (proj2 (input_view_effective _ _ Hv')).
Qed.

Lemma raise_input_unchanged e s : input_unchanged s (raise e s).
Proof. by split. Qed.

Lemma draw_input_unchanged env s drawable gc d :
  input_unchanged s (draw env s drawable gc d).
Proof.
  unfold draw. destruct (windows s !! drawable) as [w|] eqn:Hw.
  - destruct (gcs s !! gc); [|apply raise_input_unchanged].
    split; [done|]. intros id. cbn [windows with_windows].
    destruct (decide (id = drawable)) as [->|Hne].
    + by rewrite lookup_insert_eq, Hw.
    + by rewrite lookup_insert_ne.
  - destruct (drawable =? root_window env);
      [apply input_unchanged_refl | apply raise_input_unchanged].
Qed.

Lemma serve_drawing_input_unchanged env s r :
  is_drawing r = true → input_unchanged s (serve env s r).
Proof.
  destruct r; try discriminate; intros _; cbn [serve].
  - destruct (drawable_exists env s drawable); [by split | apply raise_input_unchanged].
  - destruct (gcs s !! gc); [by split | apply raise_input_unchanged].
  - apply draw_input_unchanged.
  - apply draw_input_unchanged.
Qed.

Lemma serve_all_drawing_input_unchanged env s rs :
  Forall (λ r, is_drawing r = true) rs → input_unchanged s (serve_all env s rs).
Proof.
  intros H. revert s. induction H as [|r rs Hr _ IH]; intros s.
  - apply input_unchanged_refl.
  - cbn [serve_all fold_left]. eapply input_unchanged_trans;
      [by apply serve_drawing_input_unchanged | apply IH].
Qed.

Lemma pointer_window_accepts s px py id :
  pointer_window s px py = Some id →
  ∃ w, windows s !! id = Some w ∧ accepts_pointer w px py = true.
Proof.
  unfold pointer_window. intros H. apply find_some in H as [_ H].
  destruct (windows s !! id) as [w|]; [eauto | done].
Qed.

Lemma empty_input_no_pointer s id w :
  windows s !! id = Some w →
  region_empty (effective_input w) →
  ∀ px py, pointer_window s px py ≠ Some id.
Proof.
  intros Hw He px py H. apply pointer_window_accepts in H as (w' & Hw' & Ha).
  rewrite Hw in Hw'. injection Hw' as <-.
  unfold accepts_pointer in Ha. rewrite He, andb_false_r in Ha. done.
Qed.

Lemma input_unchanged_frame s s' : input_unchanged s s' → input_frame s s'.
Proof.
  intros H. split; [done|]. split; [by apply input_unchanged_pointer|].
  intros id w Hw He. destruct H as [_ Hv]. specialize (Hv id). rewrite Hw in Hv.
  destruct (windows s' !! id) as [w'|] eqn:Hw'; [|done].
  assert (input_view w' = input_view w) as Hv' by (cbn in Hv; congruence).
  exists w'. split; [done|].
  assert (region_empty (effective_input w')) as He'
    by (by rewrite (proj1 (input_view_effective _ _ Hv'))).
  split; [done|]. by eapply empty_input_no_pointer.
Qed.

(** ** Where the pointer goes once the overlay is up *)

Lemma overlay_pointer env v drawn s px py :
  windows s = {[ overlay env := overlay_window env v true drawn ]} →
  stacking s = [overlay env] →
  pointer_window s px py =
  if in_rect {| rx := int_sub (int_sub (width_in_pixels env) 200) 50; ry := 50;
                rwidth := 200; rheight := 200 |} px py
  then Some (overlay env) else None.
Proof.
  intros Hw Hs. unfold pointer_window. rewrite Hs, Hw. cbn [find].
  rewrite lookup_singleton_eq. unfold accepts_pointer, effective_input,
    effective_bounding, default_region, window_point, in_rect.
  cbn [overlay_window w_mapped w_input w_bounding w_x w_y w_width w_height
       w_border_width contains existsb fst snd andb orb rx ry rwidth rheight in_rect].
  unfold in_rect. cbn [rx ry rwidth rheight].
  set (x := int_sub _ _).
  repeat match goal with
  | |- context [ ?a <=? ?b ] => destruct (Z.leb_spec a b)
  | |- context [ ?a <? ?b ] => destruct (Z.ltb_spec a b)
  end; cbn; try reflexivity; lia.
Qed.

(** ** Traces *)

Lemma wrap_int_small z : - 2 ^ 31 ≤ z < 2 ^ 31 → wrap_int z = z.
Proof. intros H. unfold wrap_int. rewrite Z.mod_small; lia. Qed.

Lemma geometry_x sw :
  - 2 ^ 31 + 250 ≤ sw < 2 ^ 31 → int_sub (int_sub sw 200) 50 = sw - 250.
Proof.
  intros H. unfold int_sub. rewrite (wrap_int_small (sw - 200)) by lia.
  rewrite wrap_int_small; lia.
Qed.

Lemma main_run env vinfo0 fuel :
  display_available env = true →
  main env vinfo0 fuel start =
  (None,
   {| server :=
        serve_all env
          (serve_all env (serve_all env initial_server (window_batch env vinfo0))
             (shape_batch env))
          (paint_batch env);
      outbuf := [];
      resource_id := 3;
      trace :=
        show_trace env vinfo0 ++ clickthrough_trace env ++ paint_trace env ++
        [ Stdout "Window should be visible and click-through\n" [];
          Stdout "Press Ctrl+C to exit\n" [] ] ++
        repeat (Slept 1) fuel |}).
Proof.
  intros Hd. rewrite main_open, keep_alive_run by done. f_equal.
  unfold exec. rewrite upto_paint_run. unfold clickthrough_trace, log, printf.
  destruct (shape_extension env);
    cbn -[serve_all show_trace paint_trace]; rewrite <- !app_assoc; reflexivity.
Qed.

Lemma main_server env vinfo0 fuel :
  display_available env = true →
  server (exec (main env vinfo0 fuel) start) =
  serve_all env
    (serve_all env (serve_all env initial_server (window_batch env vinfo0))
       (shape_batch env))
    (paint_batch env).
Proof. intros Hd. unfold exec. by rewrite main_run. Qed.

Lemma main_trace env vinfo0 fuel :
  display_available env = true →
  trace (exec (main env vinfo0 fuel) start) =
  show_trace env vinfo0 ++ clickthrough_trace env ++ paint_trace env ++
  [ Stdout "Window should be visible and click-through\n" [];
    Stdout "Press Ctrl+C to exit\n" [] ] ++
  repeat (Slept 1) fuel.
Proof. intros Hd. unfold exec. by rewrite main_run. Qed.

Lemma main_result env vinfo0 fuel :
  display_available env = true →
  result (main env vinfo0 fuel) start = None.
Proof. intros Hd. unfold result. by rewrite main_run. Qed.


Lemma server_after_main env vinfo0 v fuel :
  find (λ v, (depth v =? 32) && (c_class v =? TrueColor)) (screen_visuals env) = Some v →
  resource_base env ≠ 0 →
  display_available env = true →
  server (exec (main env vinfo0 fuel) start) = after_paint env v.
Proof.
  intros Hf Hb Hd. rewrite main_server by done.
  rewrite (window_batch_served env vinfo0 v) by done.
  rewrite (shape_batch_served env v) by done.
  by rewrite (paint_batch_served env v).
Qed.

Lemma requests_app l1 l2 : requests (l1 ++ l2) = requests l1 ++ requests l2.
Proof. apply omap_app. Qed.

Lemma requests_Sent rs : requests (map Sent rs) = rs.
Proof. induction rs as [|r rs IH]; [done|]. cbn. unfold requests in IH. by rewrite IH. Qed.

Lemma requests_sleeps n : requests (repeat (Slept 1) n) = [].
Proof. induction n; [done|]. cbn. done. Qed.

Lemma main_requests env vinfo0 fuel :
  display_available env = true →
  requests (trace (exec (main env vinfo0 fuel) start)) =
  window_batch env vinfo0 ++ shape_batch env ++ paint_batch env.
Proof.
  intros Hd. rewrite main_trace by done.
  unfold show_trace, clickthrough_trace, paint_trace, shape_batch.
  rewrite !requests_app, !requests_Sent, requests_sleeps.
  destruct (shape_extension env); cbn; by rewrite ?app_nil_r.
Qed.


(** ** The colormap check of the create request *)

Lemma raise_mismatch e s :
  e ≠ BadMatch_colormap_visual →
  BadMatch_colormap_visual ∈ errors (raise e s) →
  BadMatch_colormap_visual ∈ errors s.
Proof.
  intros He. cbn [raise errors]. rewrite elem_of_app, list_elem_of_singleton.
  intros [H|H]; [done | congruence].
Qed.

Lemma serve_mismatch env s r :
  colormap_consistent env s r →
  BadMatch_colormap_visual ∈ errors (serve env s r) →
  BadMatch_colormap_visual ∈ errors s.
Proof.
  intros Hc. destruct r; cbn [serve colormap_consistent] in *;
    unfold shape_combine, draw;
    repeat (case_match; try (apply raise_mismatch; congruence); try done).
Qed.

Lemma serve_all_mismatch env s rs :
  Forall (λ r, creates_window r = false) rs →
  BadMatch_colormap_visual ∈ errors (serve_all env s rs) →
  BadMatch_colormap_visual ∈ errors s.
Proof.
  intros H. revert s. induction H as [|r rs Hr _ IH]; intros s; [done|].
  cbn [serve_all fold_left]. intros Hm. apply IH in Hm.
  apply serve_mismatch in Hm; [done|]. by destruct r.
Qed.

Lemma colormap_then_window_consistent env s mid vis :
  mid ≠ 0 →
  colormaps s !! mid = None →
  check_colormap env (serve env s (CreateColormap mid (root_window env) vis AllocNone))
    vis mid ≠ Some BadMatch_colormap_visual.
Proof.
  intros Hm Hn. unfold check_colormap. destruct (Z.eqb_spec mid 0); [done|].
  cbn [serve]. repeat case_match; try done;
    cbn [raise with_colormaps colormaps] in *; simplify_map_eq; try done.
  rewrite Z.eqb_refl in *. done.
Qed.

(** ** Failure reports *)

Lemma no_stderr_sleeps n : existsb is_stderr (repeat (Slept 1) n) = false.
Proof. induction n; [done|]. cbn. done. Qed.

Lemma main_no_failure env vinfo0 fuel :
  display_available env = true →
  ¬ reports_failure (result (main env vinfo0 fuel) start)
      (trace (exec (main env vinfo0 fuel) start)).
Proof.
  intros Hd. rewrite main_result, main_trace by done.
  intros [(code & H & _)|H]; [done|].
  rewrite !app_assoc, existsb_app, no_stderr_sleeps, orb_false_r in H.
  unfold show_trace, clickthrough_trace, paint_trace in H.
  destruct (shape_extension env); discriminate H.
Qed.

Lemma overlay_shows env v drawn px py :
  in_rect (overlay_rect env) px py = true →
  shows_at (overlay_window env v true drawn) px py = true.
Proof.
  unfold shows_at, effective_bounding, default_region, window_point, in_rect,
    overlay_rect.
  cbn [overlay_window w_mapped w_input w_bounding w_x w_y w_width w_height
       w_border_width contains existsb fst snd andb orb rx ry rwidth rheight].
  unfold in_rect. cbn [rx ry rwidth rheight].
  set (x := int_sub _ _).
  repeat match goal with
  | |- context [ ?a <=? ?b ] => destruct (Z.leb_spec a b)
  | |- context [ ?a <? ?b ] => destruct (Z.ltb_spec a b)
  end; cbn; try done; lia.
Qed.

Lemma overlay_input_not_empty env v drawn :
  ¬ region_empty (effective_input (overlay_window env v true drawn)).
Proof. intros H. specialize (H 0 0). discriminate H. Qed.

(** The checked sibling of the unchecked calls: when the display cannot be
    opened, [main] says so on stderr, exits with status 1 and has sent
    nothing. *)
Lemma display_unavailable_is_fatal env vinfo0 fuel :
  display_available env = false →
  result (main env vinfo0 fuel) start = Some 1 ∧
  reports_failure (result (main env vinfo0 fuel) start)
    (trace (exec (main env vinfo0 fuel) start)) ∧
  requests (trace (exec (main env vinfo0 fuel) start)) = [].
Proof.
  intros Hd. unfold result, exec. rewrite main_closed by done.
  split; [done|]. split; [|done]. left. by exists 1.
Qed.

(** ** What an empty input region does *)

(** A rectangle list of length 0 is the empty region: set as the input
    shape of a window, it leaves the window no position at which it takes
    the pointer.  This is the request the comment of line 68 describes. *)
Lemma ShapeRectangles_empty_served env s w win :
  windows s !! w = Some win →
  let s' := serve env s (ShapeRectangles w ShapeInput ShapeSet 0 0 []) in
  ∃ win',
    windows s' !! w = Some win' ∧
    w_bounding win' = w_bounding win ∧
    region_empty (effective_input win') ∧
    ∀ px py, pointer_window s' px py ≠ Some w.
Proof.
  intros Hw s'. subst s'. cbn [serve]. unfold shape_combine. rewrite Hw.
  cbn [negb andb]. change ((0 <=? ShapeInput) && (ShapeInput <=? ShapeInput)
    && (0 <=? ShapeSet) && (ShapeSet <=? ShapeInvert)) with true. cbn [negb].
  eexists. split; [cbn [with_windows windows]; apply lookup_insert_eq|].
  assert (region_empty
            (effective_input
               (set_client_region ShapeInput
                  (Some (combine ShapeSet
                           (default (default_of ShapeInput win)
                              (client_region ShapeInput win))
                           (Translate 0 0 (Rects [])))) win))) as He.
  { intros px py. destruct win. reflexivity. }
  split; [by destruct win|]. split; [done|].
  eapply empty_input_no_pointer; [|exact He].
  cbn [with_windows windows]. apply lookup_insert_eq.
Qed.

(** * The claims *)

(** C7: the window is anchored near the top-right corner with a fixed inset:
    whatever visual was chosen, [createWindow] computes x = screen width - 250,
    y = 50, width = 200, height = 200 from the default screen's width, and
    [main] sends exactly one create request, with that geometry, and prints
    it.  The width ranges over every [int] for which line 36 does not
    overflow. *)
Theorem reference_geometry (env : Connection) (vinfo0 : XVisualInfo) (fuel : nat) :
  display_available env = true →
  - 2 ^ 31 + 250 ≤ width_in_pixels env < 2 ^ 31 →
  (∀ vinfo p,
     snd (result (createWindow env DefaultScreen (RootWindow env DefaultScreen) vinfo) p)
     = (DisplayWidth env DefaultScreen - 250, 50, 200, 200)) ∧
  omap created_geometry (requests (trace (exec (main env vinfo0 fuel) start)))
  = [ (width_in_pixels env - 250, 50, 200, 200) ] ∧
  In (Stdout "Window created at (%d, %d) size %dx%d\n"
        [width_in_pixels env - 250; 50; 200; 200])
     (trace (exec (main env vinfo0 fuel) start)).
Proof.
  intros Hd Hw. split; [|split].
  - intros vinfo p. xlib_unfold. cbn [fst snd]. by rewrite geometry_x.
  - rewrite main_requests by done. unfold window_batch, shape_batch, paint_batch.
    rewrite geometry_x by done. by destruct (shape_extension env).
  - rewrite main_trace by done.
    unfold show_trace. rewrite geometry_x by done.
    apply in_or_app. left. apply in_or_app. right. cbn. tauto.
Qed.

Lemma reference_geometry_witness :
  omap created_geometry (requests (trace (exec (main env0 stack_garbage 2) start)))
  = [ (1670, 50, 200, 200) ].
Proof.
  assert (- 2 ^ 31 + 250 ≤ width_in_pixels env0 < 2 ^ 31) as Hw by (cbn; lia).
  exact (proj1 (proj2 (reference_geometry env0 stack_garbage 2 eq_refl Hw))).
Defined.



(** C6: with a 32-bit TrueColor visual [v] on the screen, the window the
    server holds after the setup has the attributes its create request
    fixed: a colormap that was created for [v], background pixel 0 (alpha 0),
    border width 0 and override-redirect set.  No MapRequest went to the
    window manager: the window was mapped directly. *)
Theorem createWindow_attributes (env : Connection) (vinfo0 v : XVisualInfo) (fuel : nat) :
  display_available env = true →
  resource_base env ≠ 0 →
  find (λ v, (depth v =? 32) && (c_class v =? TrueColor)) (screen_visuals env) = Some v →
  let s := server (exec (main env vinfo0 fuel) start) in
  ∃ w cmap,
    windows s !! overlay env = Some w ∧
    w_colormap w = Some cmap ∧ colormaps s !! cmap = Some (visual v) ∧
    w_visual w = visual v ∧ w_depth w = 32 ∧
    w_background w = Some 0 ∧ alpha 0 = 0 ∧
    w_border_width w = 0 ∧
    w_override_redirect w = true ∧
    map_requests s = [] ∧ w_mapped w = true ∧ errors s = [].
Proof.
  intros Hd Hb Hf s. subst s. rewrite (server_after_main env vinfo0 v) by done.
  destruct (matched_supported env v Hf) as (Hdep & _).
  eexists _, _. cbn [after_paint windows colormaps map_requests errors].
  split; [apply lookup_singleton_eq|].
  cbn [overlay_window w_colormap w_visual w_depth w_background w_border_width
       w_override_redirect w_mapped].
  split; [reflexivity|]. split; [apply lookup_singleton_eq|]. done.
Qed.

Lemma createWindow_attributes_witness :
  ∃ w cmap,
    windows (server (exec (main env0 stack_garbage 0) start)) !! overlay env0 = Some w ∧
    w_colormap w = Some cmap ∧
    colormaps (server (exec (main env0 stack_garbage 0) start)) !! cmap = Some 0x5f ∧
    w_visual w = 0x5f ∧ w_depth w = 32 ∧
    w_background w = Some 0 ∧ alpha 0 = 0 ∧
    w_border_width w = 0 ∧
    w_override_redirect w = true ∧
    map_requests (server (exec (main env0 stack_garbage 0) start)) = [] ∧
    w_mapped w = true ∧
    errors (server (exec (main env0 stack_garbage 0) start)) = [].
Proof.
  assert (resource_base env0 ≠ 0) as Hb by (cbn; lia).
  exact (createWindow_attributes env0 stack_garbage
           {| visual := 0x5f; depth := 32; c_class := TrueColor |} 0
           eq_refl Hb eq_refl).
Defined.

(** C10: the colormap named in the window's attributes is the one the
    program has just created, on the root window, with AllocNone, from the
    very visual the create request carries.  The server therefore never
    answers with the Match error for a colormap of another visual,
    whatever [XMatchVisualInfo] found or left in [vinfo]. *)
Theorem colormap_made_for_window_visual (env : Connection) (vinfo0 : XVisualInfo)
    (fuel : nat) :
  display_available env = true →
  resource_base env ≠ 0 →
  let p := exec (main env vinfo0 fuel) start in
  (∃ vis dep x y mask attrs rest,
     requests (trace p) =
       CreateColormap (colormap attrs) (root_window env) vis AllocNone ::
       CreateWindow (overlay env) (root_window env) x y 200 200 0 dep InputOutput
         vis mask attrs :: rest ∧
     has_bit mask CWColormap = true ∧
     Forall (λ r, creates_window r = false) rest) ∧
  BadMatch_colormap_visual ∉ errors (server p).
Proof.
  intros Hd Hb p. subst p. split.
  - rewrite main_requests by done. unfold window_batch.
    eexists _, _, _, _, _,
      {| colormap := overlay_colormap env; background_pixel := 0;
         border_pixel := 0; override_redirect := XTrue |}, _.
    split; [cbn [app colormap]; reflexivity|]. split; [reflexivity|].
    unfold shape_batch, paint_batch. destruct (shape_extension env);
      repeat constructor.
  - rewrite main_server by done. intros Hm.
    apply serve_all_mismatch in Hm; [|repeat constructor].
    apply serve_all_mismatch in Hm;
      [|unfold shape_batch; destruct (shape_extension env); repeat constructor].
    unfold window_batch, serve_all in Hm. cbn [fold_left] in Hm.
    do 2 (apply serve_mismatch in Hm; [|exact I]).
    apply serve_mismatch in Hm.
    + apply serve_mismatch in Hm; [|exact I]. cbn in Hm. by apply elem_of_nil in Hm.
    + cbn [colormap_consistent colormap].
      apply colormap_then_window_consistent; [unfold overlay_colormap; lia | done].
Qed.

Lemma colormap_made_for_window_visual_witness :
  BadMatch_colormap_visual ∉
    errors (server (exec (main env_no_alpha stack_garbage 1) start)).
Proof.
  assert (resource_base env_no_alpha ≠ 0) as Hb by (cbn; lia).
  exact (proj2 (colormap_made_for_window_visual env_no_alpha stack_garbage 1
                  eq_refl Hb)).
Defined.

(** C3: the status of [XMatchVisualInfo] is not looked at.  On a server
    without a 32-bit TrueColor visual the call returns 0 and leaves [vinfo]
    as it was, and [main] goes on all the same: it reports no failure, and
    it sends the colormap and window requests with the visual and depth the
    uninitialised structure happened to hold, followed by everything else. *)
Theorem visual_status_ignored (env : Connection) (vinfo0 : XVisualInfo) (fuel : nat) :
  display_available env = true →
  find (λ v, (depth v =? 32) && (c_class v =? TrueColor)) (screen_visuals env) = None →
  let p := exec (main env vinfo0 fuel) start in
  result (XMatchVisualInfo env DefaultScreen 32 TrueColor vinfo0) start = (0, vinfo0) ∧
  ¬ reports_failure (result (main env vinfo0 fuel) start) (trace p) ∧
  ∃ rest,
    requests (trace p) =
      CreateColormap (overlay_colormap env) (root_window env) (visual vinfo0) AllocNone ::
      CreateWindow (overlay env) (root_window env)
        (int_sub (int_sub (width_in_pixels env) 200) 50) 50 200 200 0
        (depth vinfo0) InputOutput (visual vinfo0)
        (Z.lor (Z.lor (Z.lor CWColormap CWBackPixel) CWBorderPixel) CWOverrideRedirect)
        {| colormap := overlay_colormap env; background_pixel := 0;
           border_pixel := 0; override_redirect := XTrue |} ::
      ChangeProperty_WM_NAME (overlay env) "C ClickThrough Test" ::
      MapWindow (overlay env) :: rest.
Proof.
  intros Hd Hf p. subst p. split; [|split].
  - unfold result, XMatchVisualInfo, ret. cbn [fst]. by rewrite Hf.
  - by apply main_no_failure.
  - rewrite main_requests by done. unfold window_batch, vinfo_after. rewrite Hf.
    eexists. reflexivity.
Qed.

Lemma visual_status_ignored_witness :
  ¬ reports_failure (result (main env_no_alpha stack_garbage 1) start)
      (trace (exec (main env_no_alpha stack_garbage 1) start)).
Proof.
  exact (proj1 (proj2 (visual_status_ignored env_no_alpha stack_garbage 1
                         eq_refl eq_refl))).
Defined.

(** C2: the one shape request of [setClickThrough] addresses the input kind
    only, and the bounding region stays unspecified, so the whole rectangle
    shows.  Its source is None, though: the server removes the client input
    region instead of installing an empty one, the effective input region
    is the whole rectangle, and a pointer event anywhere in the rectangle is
    delivered to the overlay, right after [setClickThrough] and at the end
    of [main] alike. *)
Theorem input_shape_after_setClickThrough (env : Connection) (vinfo0 v : XVisualInfo) :
  display_available env = true →
  resource_base env ≠ 0 →
  shape_extension env = true →
  find (λ v, (depth v =? 32) && (c_class v =? TrueColor)) (screen_visuals env) = Some v →
  let p := exec (upto_clickthrough env vinfo0) start in
  List.filter is_shape (requests (trace p)) =
    [ ShapeMask (overlay env) ShapeInput ShapeSet 0 0 XNone ] ∧
  (∃ w,
     windows (server p) !! overlay env = Some w ∧
     w_bounding w = None ∧ w_input w = None ∧
     ¬ region_empty (effective_input w) ∧
     ∀ px py, in_rect (overlay_rect env) px py = true →
       shows_at w px py = true ∧
       pointer_window (server p) px py = Some (overlay env)) ∧
  ∀ fuel px py, in_rect (overlay_rect env) px py = true →
    pointer_window (server (exec (main env vinfo0 fuel) start)) px py
    = Some (overlay env).
Proof.
  intros Hd Hb Hs Hf p. subst p. split; [|split].
  - unfold exec. rewrite upto_clickthrough_run. cbn [snd trace].
    unfold show_trace, clickthrough_trace. rewrite Hs.
    rewrite !requests_app, requests_Sent. reflexivity.
  - rewrite (server_after_clickthrough env vinfo0 v) by done.
    eexists. split; [apply lookup_singleton_eq|].
    split; [done|]. split; [done|]. split; [apply overlay_input_not_empty|].
    intros px py Hin. split; [by apply overlay_shows|].
    rewrite (overlay_pointer env v []) by done.
    unfold overlay_rect in Hin. by rewrite Hin.
  - intros fuel px py Hin. rewrite (server_after_main env vinfo0 v) by done.
    erewrite overlay_pointer by done.
    unfold overlay_rect in Hin. by rewrite Hin.
Qed.

Lemma input_shape_after_setClickThrough_witness :
  pointer_window (server (exec (upto_clickthrough env0 stack_garbage) start)) 1680 60
  = Some (overlay env0).
Proof.
  assert (resource_base env0 ≠ 0) as Hb by (cbn; lia).
  destruct (input_shape_after_setClickThrough env0 stack_garbage
              {| visual := 0x5f; depth := 32; c_class := TrueColor |}
              eq_refl Hb eq_refl eq_refl)
    as (_ & (w & _ & _ & _ & _ & H) & _).
  exact (proj2 (H 1680 60 eq_refl)).
Defined.

(** C1: on a server with a 32-bit visual and the SHAPE extension, at the end
    of [main] the opaque red fill covers the whole window, the overlay's
    input region is not empty, and a click at (x + 10, y + 10) is delivered
    to the overlay.  Painting is not what lets the pointer in (see
    [paint_leaves_input_shape] below): the region was never empty. *)
Theorem pointer_delivered_after_paint :
  let s := server (exec (main env0 stack_garbage 1) start) in
  ∃ w,
    windows s !! overlay env0 = Some w ∧
    In (Fill 0xFFFF0000
          {| rx := 0; ry := 0; rwidth := w_width w; rheight := w_height w |})
       (w_drawn w) ∧
    alpha 0xFFFF0000 = 255 ∧
    ¬ region_empty (effective_input w) ∧
    pointer_window s (1670 + 10) (50 + 10) = Some (overlay env0).
Proof.
  cbv zeta.
  rewrite (server_after_main env0 stack_garbage
             {| visual := 0x5f; depth := 32; c_class := TrueColor |});
    [| reflexivity | cbn; lia | reflexivity ].
  eexists. split; [apply lookup_singleton_eq|].
  split; [cbn; tauto|]. split; [reflexivity|].
  split; [apply overlay_input_not_empty|].
  erewrite overlay_pointer by reflexivity. reflexivity.
Qed.

(** Painting leaves the input shape as it is.  Whatever drawing requests
    the server takes, and in particular the batch of [paint] with its opaque
    fill, every window keeps its position, size, map state, bounding and
    input regions, and every pointer position is delivered where it was
    delivered before; a window whose input region was empty before still
    has an empty one and still gets no pointer event.  In [main] itself the
    pointer goes to the same window after [paint] as after
    [setClickThrough]. *)
Theorem paint_leaves_input_shape (env : Connection) :
  (∀ s rs, Forall (λ r, is_drawing r = true) rs →
     input_frame s (serve_all env s rs)) ∧
  (∀ p window width height, outbuf p = [] →
     input_frame (server p) (server (exec (paint env window width height) p))) ∧
  alpha 0xFFFF0000 = 255 ∧
  (∀ vinfo0 px py,
     pointer_window (server (exec (upto_paint env vinfo0) start)) px py =
     pointer_window (server (exec (upto_clickthrough env vinfo0) start)) px py).
Proof.
  split; [|split; [|split]].
  - intros s rs H. by apply input_unchanged_frame, serve_all_drawing_input_unchanged.
  - intros p window width height Hout. unfold exec.
    rewrite paint_run by done. cbn [snd server].
    apply input_unchanged_frame, serve_all_drawing_input_unchanged.
    repeat constructor.
  - reflexivity.
  - intros vinfo0 px py. unfold exec.
    rewrite upto_paint_run, upto_clickthrough_run. cbn [snd server].
    apply input_unchanged_pointer, serve_all_drawing_input_unchanged.
    repeat constructor.
Qed.

Example paint_leaves_input_shape_on_overlay :
  input_frame (server (exec (upto_clickthrough env0 stack_garbage) start))
    (server (exec (paint env0 (overlay env0) 200 200)
               (exec (upto_clickthrough env0 stack_garbage) start))).
Proof.
  assert (outbuf (exec (upto_clickthrough env0 stack_garbage) start) = []) as Hout
    by (unfold exec; rewrite upto_clickthrough_run; reflexivity).
  exact (proj1 (proj2 (paint_leaves_input_shape env0)) _ (overlay env0) 200 200 Hout).
Defined.

(** C8: after [setClickThrough] has been applied twice to the overlay, its
    input region is not empty and the click at (x + 10, y + 10) goes to the
    overlay.  The two applications do agree with one (see
    [setClickThrough_idempotent] below); what they agree on is the default
    input region. *)
Theorem input_not_empty_after_two_setClickThrough :
  let p := exec (setClickThrough env0 (overlay env0))
             (exec (upto_clickthrough env0 stack_garbage) start) in
  ∃ w,
    windows (server p) !! overlay env0 = Some w ∧
    ¬ region_empty (effective_input w) ∧
    pointer_window (server p) (1670 + 10) (50 + 10) = Some (overlay env0).
Proof.
  cbv zeta. eexists. split; [vm_compute; reflexivity|]. split.
  - intros H. specialize (H 0 0). vm_compute in H. discriminate H.
  - vm_compute. reflexivity.
Qed.

(** Applying [setClickThrough] twice in a row to an existing window leaves
    the server exactly as applying it once does, so nothing toggles: every
    pointer position is delivered to the same window either way. *)
Theorem setClickThrough_idempotent (env : Connection) (p : Process) (window : Z) :
  outbuf p = [] →
  is_Some (windows (server p) !! window) →
  let once := exec (setClickThrough env window) p in
  let twice := exec (setClickThrough env window) once in
  server twice = server once ∧
  twice = exec (setClickThrough env window;; setClickThrough env window) p ∧
  ∀ px py, pointer_window (server twice) px py = pointer_window (server once) px py.
Proof.
  intros Hout [win Hw] once twice.
  assert (server twice = server once) as Heq.
  { subst once twice. unfold exec.
    rewrite (setClickThrough_run env window p) by done. cbn [snd].
    rewrite setClickThrough_run by done. cbn [snd server].
    destruct (shape_extension env); [|done].
    cbn [serve_all fold_left].
    rewrite (ShapeMask_None_served env (server p) window win)
      by first [ done | unfold ShapeInput, ShapeSet, ShapeInvert; lia ].
    erewrite ShapeMask_None_served;
      [| cbn [with_windows windows]; apply lookup_insert_eq
       | by compute | by compute ].
    cbn [with_windows windows colormaps stacking gcs pixmaps map_requests errors].
    rewrite insert_insert_eq. by destruct win. }
  split; [done|]. split.
  - subst once twice. unfold exec, bind.
    by destruct (setClickThrough env window p) as [[] p1].
  - intros px py. by rewrite Heq.
Qed.

Example setClickThrough_idempotent_on_overlay :
  server (exec (setClickThrough env0 (overlay env0))
            (exec (setClickThrough env0 (overlay env0))
               (exec (upto_show env0 stack_garbage) start))) =
  server (exec (setClickThrough env0 (overlay env0))
            (exec (upto_show env0 stack_garbage) start)).
Proof.
  assert (outbuf (exec (upto_show env0 stack_garbage) start) = []) as Hout
    by (unfold exec; rewrite upto_show_run; reflexivity).
  assert (is_Some (windows (server (exec (upto_show env0 stack_garbage) start))
                     !! overlay env0)) as Hw
    by (vm_compute; eauto).
  exact (proj1 (setClickThrough_idempotent env0 _ (overlay env0) Hout Hw)).
Defined.


(** C5: with a display and a 32-bit TrueColor visual, the overlay as the
    server holds it is Unborn at the start, Created once the create request
    is served, and Mapped when [show] has flushed.  After [setClickThrough]
    it is still Mapped and not ClickThroughApplied: its input region is not
    empty.  At the end of [main] it is mapped and painted with its input
    region still not empty, which is none of the five phases.  What holds
    is the order of the requests: create, name, map, then the one shape
    request when the server has the extension and none when it has not,
    then the paint batch; no unmap request; and between the map request and
    the call of XShapeCombineMask only a flush, two printf, sleep(1) and a
    printf. *)
Theorem clickthrough_phase_not_entered (env : Connection) (vinfo0 v : XVisualInfo)
    (fuel : nat) :
  display_available env = true →
  resource_base env ≠ 0 →
  find (λ v, (depth v =? 32) && (c_class v =? TrueColor)) (screen_visuals env) = Some v →
  let w := overlay env in
  let shown := server (exec (upto_show env vinfo0) start) in
  let shaped := server (exec (upto_clickthrough env vinfo0) start) in
  let final := server (exec (main env vinfo0 fuel) start) in
  let tr := trace (exec (main env vinfo0 fuel) start) in
  in_phase initial_server w Unborn ∧
  in_phase (serve_all env initial_server (firstn 2 (window_batch env vinfo0))) w Created ∧
  in_phase shown w Mapped ∧
  in_phase shaped w Mapped ∧
  ¬ in_phase shaped w ClickThroughApplied ∧
  (∀ ph, ¬ in_phase final w ph) ∧
  (∃ win, windows final !! w = Some win ∧ w_mapped win = true ∧
          w_drawn win ≠ [] ∧ ¬ region_empty (effective_input win)) ∧
  requests tr = window_batch env vinfo0 ++ shape_batch env ++ paint_batch env ∧
  List.filter is_unmap (requests tr) = [] ∧
  List.filter is_shape (requests tr) = shape_batch env ∧
  ∃ before after,
    tr = before ++
         [ Sent (MapWindow w);
           Flushed;
           Stdout "Window created at (%d, %d) size %dx%d\n"
             [int_sub (int_sub (width_in_pixels env) 200) 50; 50; 200; 200];
           Stdout "Window ID: 0x%lx\n" [w];
           Slept 1;
           Stdout "Applying click-through with Shape extension...\n" [];
           if shape_extension env
           then Sent (ShapeMask w ShapeInput ShapeSet 0 0 XNone)
           else MissingExtension "SHAPE" ] ++
         after.
Proof.
  intros Hd Hb Hf w shown shaped final tr. subst w shown shaped final tr.
  destruct (matched_supported env v Hf) as (_ & _ & Hv & Hvd).
  rewrite (server_after_show env vinfo0 v), (server_after_clickthrough env vinfo0 v),
    (server_after_main env vinfo0 v) by done.
  split; [apply lookup_empty|]. split.
  { unfold window_batch, vinfo_after. rewrite Hf. cbn [firstn].
    rewrite serve_all_cons, serve_CreateColormap_root by done.
    rewrite serve_all_cons.
    erewrite serve_CreateWindow_overlay;
      [| done | unfold overlay_colormap; lia
       | cbn [with_colormaps colormaps]; apply lookup_insert_eq ].
    cbn [serve_all fold_left in_phase with_stacking with_windows windows].
    eexists. split; [apply lookup_insert_eq|]. reflexivity. }
  assert (in_phase (after_show env v) (overlay env) Mapped) as Hmapped.
  { cbn [in_phase after_show windows]. eexists.
    split; [apply lookup_singleton_eq|]. split; [reflexivity|].
    split; [apply overlay_input_not_empty | reflexivity]. }
  split; [done|]. split; [done|]. split.
  { cbn [in_phase after_show windows]. intros (win & Hl & _ & He & _).
    rewrite lookup_singleton_eq in Hl. injection Hl as <-.
    by apply overlay_input_not_empty in He. }
  split.
  { intros ph. unfold after_paint.
    destruct ph; cbn [in_phase windows].
    - by rewrite lookup_singleton_eq.
    - intros (win & Hl & Hm). rewrite lookup_singleton_eq in Hl.
      injection Hl as <-. discriminate Hm.
    - intros (win & Hl & _ & _ & Hdr). rewrite lookup_singleton_eq in Hl.
      injection Hl as <-. discriminate Hdr.
    - intros (win & Hl & _ & _ & Hdr). rewrite lookup_singleton_eq in Hl.
      injection Hl as <-. discriminate Hdr.
    - intros (win & Hl & _ & He & _). rewrite lookup_singleton_eq in Hl.
      injection Hl as <-. by apply overlay_input_not_empty in He. }
  split.
  { cbn [after_paint windows]. eexists. split; [apply lookup_singleton_eq|].
    split; [reflexivity|]. split; [done|]. apply overlay_input_not_empty. }
  rewrite main_requests by done. split; [done|].
  split; [unfold window_batch, shape_batch, paint_batch;
          by destruct (shape_extension env)|].
  split; [unfold window_batch, shape_batch, paint_batch;
          by destruct (shape_extension env)|].
  rewrite main_trace by done.
  unfold show_trace, clickthrough_trace, window_batch.
  eexists [_; _; _], _. by destruct (shape_extension env).
Qed.

Lemma clickthrough_phase_not_entered_witness :
  in_phase (server (exec (upto_clickthrough env0 stack_garbage) start))
    (overlay env0) Mapped ∧
  ¬ in_phase (server (exec (upto_clickthrough env0 stack_garbage) start))
      (overlay env0) ClickThroughApplied.
Proof.
  assert (resource_base env0 ≠ 0) as Hb by (cbn; lia).
  pose proof (clickthrough_phase_not_entered env0 stack_garbage
                {| visual := 0x5f; depth := 32; c_class := TrueColor |} 1
                eq_refl Hb eq_refl) as (_ & _ & _ & H1 & H2 & _).
  exact (conj H1 H2).
Defined.

(** C4: without the SHAPE extension [setClickThrough] does not fail.  Xlib
    notes the missing extension and sends no request, the server is left
    exactly as it was, and the call prints that click-through was applied.
    [main] does not return: it sends no shape request at all, prints the
    line and goes on to paint.  The window's state is intact at the end: it
    is mapped, shows over its whole rectangle, has been painted, and takes
    the pointer everywhere in the rectangle. *)
Theorem shape_absent_carries_on (env : Connection) (vinfo0 v : XVisualInfo)
    (fuel : nat) :
  display_available env = true →
  resource_base env ≠ 0 →
  shape_extension env = false →
  find (λ v, (depth v =? 32) && (c_class v =? TrueColor)) (screen_visuals env) = Some v →
  (∀ p window, outbuf p = [] →
     let p' := exec (setClickThrough env window) p in
     server p' = server p ∧
     trace p' =
       trace p ++
       [ Stdout "Applying click-through with Shape extension...\n" [];
         MissingExtension "SHAPE";
         Flushed;
         Stdout "Click-through applied - input shape removed\n" [] ]) ∧
  let p := exec (main env vinfo0 fuel) start in
  result (main env vinfo0 fuel) start = None ∧
  List.filter is_shape (requests (trace p)) = [] ∧
  In (MissingExtension "SHAPE") (trace p) ∧
  In (Stdout "Click-through applied - input shape removed\n" []) (trace p) ∧
  ∃ w,
    windows (server p) !! overlay env = Some w ∧
    w_mapped w = true ∧ w_drawn w ≠ [] ∧
    ∀ px py, in_rect (overlay_rect env) px py = true →
      shows_at w px py = true ∧
      pointer_window (server p) px py = Some (overlay env).
Proof.
  intros Hd Hb Hs Hf. split.
  { intros p window Hout p'. subst p'. unfold exec.
    rewrite setClickThrough_run by done. rewrite Hs. by cbn [snd server trace]. }
  cbv zeta. split; [by apply main_result|]. split.
  { rewrite main_requests by done. unfold window_batch, shape_batch, paint_batch.
    by rewrite Hs. }
  rewrite main_trace by done. unfold clickthrough_trace. rewrite Hs.
  split; [apply in_or_app; right; cbn; tauto|].
  split; [apply in_or_app; right; cbn; tauto|].
  rewrite (server_after_main env vinfo0 v) by done.
  eexists. split; [apply lookup_singleton_eq|].
  split; [done|]. split; [done|].
  intros px py Hin. split; [by apply overlay_shows|].
  erewrite overlay_pointer by done.
  unfold overlay_rect in Hin. by rewrite Hin.
Qed.

Lemma shape_absent_carries_on_witness :
  result (main env_no_shape stack_garbage 1) start = None ∧
  In (Stdout "Click-through applied - input shape removed\n" [])
     (trace (exec (main env_no_shape stack_garbage 1) start)).
Proof.
  assert (resource_base env_no_shape ≠ 0) as Hb by (cbn; lia).
  pose proof (shape_absent_carries_on env_no_shape stack_garbage
                {| visual := 0x5f; depth := 32; c_class := TrueColor |} 1
                eq_refl Hb eq_refl eq_refl) as (_ & H1 & _ & _ & H2 & _).
  exact (conj H1 H2).
Defined.

(** * Further properties of the program *)

(** ** Requests on resources the server does not know *)

Lemma serve_CreateGC_unknown env s cid d mask :
  windows s !! d = None → d ≠ root_window env →
  serve env s (CreateGC cid d mask) = raise BadDrawable s.
Proof.
  intros Hw Hr. cbn [serve]. unfold drawable_exists. rewrite Hw.
  destruct (Z.eqb_spec d (root_window env)); [done|].
  rewrite bool_decide_eq_false_2; [done|]. by intros [? ?].
Qed.

Lemma serve_ChangeGC_unknown env s gc fg :
  gcs s !! gc = None →
  serve env s (ChangeGC_foreground gc fg) = raise BadGC s.
Proof. intros Hg. cbn [serve]. by rewrite Hg. Qed.

Lemma draw_unknown env s d gc f :
  windows s !! d = None → d ≠ root_window env →
  draw env s d gc f = raise BadDrawable s.
Proof.
  intros Hw Hr. unfold draw. rewrite Hw.
  by destruct (Z.eqb_spec d (root_window env)).
Qed.

Lemma paint_requests_unknown env s window gc width height :
  windows s !! window = None → window ≠ root_window env →
  gcs s !! gc = None →
  serve_all env s
    [ CreateGC gc window 0;
      ChangeGC_foreground gc 0xFFFF0000;
      PolyFillRectangle window gc
        {| rx := 0; ry := 0; rwidth := width; rheight := height |};
      ChangeGC_foreground gc 0xFFFFFFFF;
      PolyText8 window gc 50 100 "Click Through Test" ] =
  {| colormaps := colormaps s; windows := windows s; stacking := stacking s;
     gcs := gcs s; pixmaps := pixmaps s; map_requests := map_requests s;
     errors := errors s ++ [ BadDrawable; BadGC; BadDrawable; BadGC; BadDrawable ] |}.
Proof.
  intros Hw Hr Hg.
  rewrite serve_all_cons, serve_CreateGC_unknown by done.
  rewrite serve_all_cons, serve_ChangeGC_unknown by done.
  rewrite serve_all_cons. cbn [serve]. rewrite draw_unknown by done.
  rewrite serve_all_cons, serve_ChangeGC_unknown by done.
  rewrite serve_all_cons. cbn [serve]. rewrite draw_unknown by done.
  destruct s. unfold raise. cbn. by rewrite <- !app_assoc.
Qed.

Lemma paint_requests_known env s window gc width height w :
  windows s !! window = Some w →
  serve_all env s
    [ CreateGC gc window 0;
      ChangeGC_foreground gc 0xFFFF0000;
      PolyFillRectangle window gc
        {| rx := 0; ry := 0; rwidth := width; rheight := height |};
      ChangeGC_foreground gc 0xFFFFFFFF;
      PolyText8 window gc 50 100 "Click Through Test" ] =
  {| colormaps := colormaps s;
     windows :=
       <[window :=
           add_drawing (Text 0xFFFFFFFF 50 100 "Click Through Test")
             (add_drawing
                (Fill 0xFFFF0000
                   {| rx := 0; ry := 0; rwidth := width; rheight := height |}) w)]>
         (windows s);
     stacking := stacking s;
     gcs := <[gc := 0xFFFFFFFF]> (gcs s);
     pixmaps := pixmaps s; map_requests := map_requests s;
     errors := errors s |}.
Proof.
  intros Hw. destruct s as [cm ws st g pm mr er]. cbn [windows] in Hw.
  rewrite serve_all_cons. erewrite serve_CreateGC_window by exact Hw.
  unfold with_gcs; cbn [gcs windows colormaps stacking pixmaps map_requests errors].
  rewrite serve_all_cons.
  erewrite serve_ChangeGC_known by (cbn [gcs]; apply lookup_insert_eq).
  unfold with_gcs; cbn [gcs windows colormaps stacking pixmaps map_requests errors].
  rewrite insert_insert_eq, serve_all_cons. cbn [serve].
  erewrite draw_known;
    [| cbn [windows]; exact Hw | cbn [gcs]; apply lookup_insert_eq ].
  unfold with_windows; cbn [gcs windows colormaps stacking pixmaps map_requests errors].
  rewrite serve_all_cons.
  erewrite serve_ChangeGC_known by (cbn [gcs]; apply lookup_insert_eq).
  unfold with_gcs; cbn [gcs windows colormaps stacking pixmaps map_requests errors].
  rewrite insert_insert_eq, serve_all_cons. cbn [serve].
  erewrite draw_known;
    [| cbn [windows]; apply lookup_insert_eq | cbn [gcs]; apply lookup_insert_eq ].
  unfold with_windows; cbn [gcs windows colormaps stacking pixmaps map_requests errors].
  rewrite insert_insert_eq. reflexivity.
Qed.

Lemma stdout_sleeps n : stdout (repeat (Slept 1) n) = [].
Proof. induction n; [done|]. cbn. done. Qed.

Lemma accepts_where_shown w :
  ∀ px py,
    accepts_pointer (set_shapes (w_bounding w) (w_clip w) None w) px py
    = shows_at w px py.
Proof.
  intros px py. destruct w as [x y wd ht bw dp vs cm bg bd ov mp nm bo cl inp dr].
  unfold accepts_pointer, shows_at, effective_input, effective_bounding,
    window_point, set_shapes.
  cbn [w_mapped w_input w_bounding w_x w_y w_border_width w_width w_height
       fst snd].
  destruct mp; [|done]. cbn [andb contains].
  destruct bo as [r|]; cbn [contains];
    destruct (contains (default_region _) _ _); cbn;
    rewrite ?andb_true_r, ?andb_false_r; done.
Qed.

(** X1: when the display cannot be opened, [main] writes the one line
    "Cannot open display" to stderr and returns 1.  It has queued and sent
    nothing, allocated no XID, printed nothing on stdout and not slept. *)
Theorem display_unavailable_exits (env : Connection) (vinfo0 : XVisualInfo)
    (fuel : nat) (p : Process) :
  display_available env = false →
  result (main env vinfo0 fuel) p = Some 1 ∧
  exec (main env vinfo0 fuel) p =
    {| server := server p; outbuf := outbuf p; resource_id := resource_id p;
       trace := trace p ++ [ Stderr "Cannot open display\n" ] |}.
Proof.
  intros Hd. unfold result, exec. rewrite main_closed by done. done.
Qed.

Lemma display_unavailable_exits_witness :
  result (main env_no_display stack_garbage 3) start = Some 1 ∧
  exec (main env_no_display stack_garbage 3) start =
    {| server := server start; outbuf := outbuf start;
       resource_id := resource_id start;
       trace := trace start ++ [ Stderr "Cannot open display\n" ] |}.
Proof.
  exact (display_unavailable_exits env_no_display stack_garbage 3 start eq_refl).
Defined.

(** X2: the only exit status [main] ever returns is 1, and it returns it
    exactly when the display cannot be opened.  With a display the process
    is still running after any number of rounds of the keep-alive loop:
    the [return 0] of line 94 is never reached. *)
Theorem main_exit_status (env : Connection) (vinfo0 : XVisualInfo) (fuel : nat)
    (p : Process) :
  result (main env vinfo0 fuel) p =
    (if display_available env then None else Some 1) ∧
  result (main env vinfo0 fuel) p ≠ Some 0.
Proof.
  assert (result (main env vinfo0 fuel) p =
            (if display_available env then None else Some 1)) as H.
  { unfold result. destruct (display_available env) eqn:Hd.
    - by rewrite main_open, keep_alive_run.
    - by rewrite main_closed. }
  split; [done|]. rewrite H. by destruct (display_available env).
Qed.

(** X3: the keep-alive loop does nothing but sleep.  However many rounds
    have run, the server, Xlib's buffer and the XID counter are what they
    were when the setup ended, and the trace has grown by one sleep of one
    second per round. *)
Theorem keep_alive_is_inert (env : Connection) (vinfo0 : XVisualInfo) (fuel : nat) :
  display_available env = true →
  let p0 := exec (main env vinfo0 0) start in
  let p := exec (main env vinfo0 fuel) start in
  server p = server p0 ∧ outbuf p = outbuf p0 ∧ resource_id p = resource_id p0 ∧
  trace p = trace p0 ++ repeat (Slept 1) fuel ∧
  ∀ q, keep_alive fuel q =
       (None, {| server := server q; outbuf := outbuf q;
                 resource_id := resource_id q;
                 trace := trace q ++ repeat (Slept 1) fuel |}).
Proof.
  intros Hd p0 p. subst p0 p. unfold exec. rewrite !main_run by done.
  cbn [snd server outbuf resource_id trace repeat].
  repeat split; try done.
  - by rewrite <- !app_assoc.
  - intros q. apply keep_alive_run.
Qed.

Lemma keep_alive_is_inert_witness :
  server (exec (main env0 stack_garbage 5) start) =
  server (exec (main env0 stack_garbage 0) start).
Proof. exact (proj1 (keep_alive_is_inert env0 stack_garbage 5 eq_refl)). Defined.

(** X4: when the server has a 32-bit TrueColor visual, the run of [main]
    does not depend on what the uninitialised [vinfo] held: result, server,
    buffer and trace are the same for any two initial contents. *)
Theorem matched_run_ignores_stack (env : Connection) (v vinfo0 vinfo0' : XVisualInfo)
    (fuel : nat) :
  find (λ v, (depth v =? 32) && (c_class v =? TrueColor)) (screen_visuals env) = Some v →
  main env vinfo0 fuel start = main env vinfo0' fuel start.
Proof.
  intros Hf. destruct (display_available env) eqn:Hd.
  - rewrite !main_run by done.
    unfold show_trace, window_batch, vinfo_after. by rewrite Hf.
  - by rewrite !main_closed.
Qed.

Lemma matched_run_ignores_stack_witness :
  main env0 stack_garbage 1 start =
  main env0 {| visual := 0; depth := 0; c_class := 0 |} 1 start.
Proof.
  exact (matched_run_ignores_stack env0
           {| visual := 0x5f; depth := 32; c_class := TrueColor |}
           stack_garbage {| visual := 0; depth := 0; c_class := 0 |} 1 eq_refl).
Defined.

(** X6: [paint] on a window the server knows, with nothing waiting in the
    buffer: the window gains a fill of the given width and height at its
    origin in opaque red and, on top of it, the whole 18-character text in
    opaque white at (50, 100).  One graphics context is created under the
    next XID and is left with a white foreground.  Everything else at the
    server is as before, no error is raised and the buffer is empty
    again. *)
Theorem paint_draws (env : Connection) (p : Process) (window width height : Z)
    (w : Window) :
  outbuf p = [] →
  windows (server p) !! window = Some w →
  let p' := exec (paint env window width height) p in
  server p' =
    {| colormaps := colormaps (server p);
       windows :=
         <[window :=
             add_drawing (Text 0xFFFFFFFF 50 100 "Click Through Test")
               (add_drawing
                  (Fill 0xFFFF0000
                     {| rx := 0; ry := 0; rwidth := width; rheight := height |}) w)]>
           (windows (server p));
       stacking := stacking (server p);
       gcs := <[resource_base env + resource_id p := 0xFFFFFFFF]> (gcs (server p));
       pixmaps := pixmaps (server p); map_requests := map_requests (server p);
       errors := errors (server p) |} ∧
  outbuf p' = [] ∧ resource_id p' = resource_id p + 1 ∧
  alpha 0xFFFF0000 = 255 ∧ alpha 0xFFFFFFFF = 255 ∧
  Z.of_nat (String.length "Click Through Test") = 18.
Proof.
  intros Hout Hw p'. subst p'. unfold exec. rewrite paint_run by done.
  cbn [snd server outbuf resource_id].
  split; [by apply paint_requests_known|]. done.
Qed.

Lemma paint_draws_witness :
  outbuf (exec (paint env0 (overlay env0) 200 200)
            (exec (upto_clickthrough env0 stack_garbage) start)) = [].
Proof.
  assert (outbuf (exec (upto_clickthrough env0 stack_garbage) start) = []) as Hout
    by (unfold exec; rewrite upto_clickthrough_run; reflexivity).
  assert (resource_base env0 ≠ 0) as Hb by (cbn; lia).
  assert (windows (server (exec (upto_clickthrough env0 stack_garbage) start))
            !! overlay env0
          = Some (overlay_window env0
                    {| visual := 0x5f; depth := 32; c_class := TrueColor |} true []))
    as Hw.
  { rewrite (server_after_clickthrough env0 stack_garbage
               {| visual := 0x5f; depth := 32; c_class := TrueColor |} eq_refl Hb).
    apply lookup_singleton_eq. }
  exact (proj1 (proj2 (paint_draws env0 _ (overlay env0) 200 200 _ Hout Hw))).
Defined.

(** X7: [paint] on a window the server does not know draws nothing.  The
    graphics context is not created either, so each of the five requests is
    answered with an error: Drawable, GC, Drawable, GC, Drawable.  Windows,
    graphics contexts and everything else at the server stay as they
    were; the XID is used up all the same. *)
Theorem paint_unknown_window (env : Connection) (p : Process)
    (window width height : Z) :
  outbuf p = [] →
  windows (server p) !! window = None →
  window ≠ root_window env →
  gcs (server p) !! (resource_base env + resource_id p) = None →
  let p' := exec (paint env window width height) p in
  server p' =
    {| colormaps := colormaps (server p); windows := windows (server p);
       stacking := stacking (server p); gcs := gcs (server p);
       pixmaps := pixmaps (server p); map_requests := map_requests (server p);
       errors :=
         errors (server p) ++ [ BadDrawable; BadGC; BadDrawable; BadGC; BadDrawable ] |} ∧
  resource_id p' = resource_id p + 1.
Proof.
  intros Hout Hw Hr Hg p'. subst p'. unfold exec. rewrite paint_run by done.
  cbn [snd server resource_id].
  split; [by apply paint_requests_unknown|]. done.
Qed.

Lemma paint_unknown_window_witness :
  resource_id (exec (paint env0 5 200 200) start) = resource_id start + 1.
Proof.
  assert (5 ≠ root_window env0) as Hr by (simpl; lia).
  exact (proj2 (paint_unknown_window env0 start 5 200 200 eq_refl eq_refl Hr eq_refl)).
Defined.

(** X9: [setClickThrough] on a window the server knows, on a server with the
    SHAPE extension: whatever client input region the window had, an empty
    one included, it has none afterwards, and nothing else about the window
    or the server changes.  From then on the window takes the pointer exactly
    where it shows. *)
Theorem setClickThrough_unsets_input (env : Connection) (p : Process) (window : Z)
    (w : Window) :
  shape_extension env = true →
  outbuf p = [] →
  windows (server p) !! window = Some w →
  let w' := set_shapes (w_bounding w) (w_clip w) None w in
  server (exec (setClickThrough env window) p) =
    with_windows (<[window := w']> (windows (server p))) (server p) ∧
  ∀ px py, accepts_pointer w' px py = shows_at w px py.
Proof.
  intros Hs Hout Hw w'. subst w'. split; [|apply accepts_where_shown].
  unfold exec. rewrite setClickThrough_run by done. rewrite Hs.
  cbn [snd server serve_all fold_left].
  rewrite (ShapeMask_None_served env (server p) window w)
    by first [ done | unfold ShapeInput, ShapeSet, ShapeInvert; lia ].
  reflexivity.
Qed.

Lemma setClickThrough_unsets_input_witness :
  accepts_pointer
    (set_shapes None None None
       (overlay_window env0 {| visual := 0x5f; depth := 32; c_class := TrueColor |}
          true [])) 1680 60
  = shows_at
      (overlay_window env0 {| visual := 0x5f; depth := 32; c_class := TrueColor |}
         true []) 1680 60.
Proof.
  assert (outbuf (exec (upto_show env0 stack_garbage) start) = []) as Hout
    by (unfold exec; rewrite upto_show_run; reflexivity).
  assert (resource_base env0 ≠ 0) as Hb by (cbn; lia).
  assert (windows (server (exec (upto_show env0 stack_garbage) start))
            !! overlay env0
          = Some (overlay_window env0
                    {| visual := 0x5f; depth := 32; c_class := TrueColor |} true []))
    as Hw.
  { rewrite (server_after_show env0 stack_garbage
               {| visual := 0x5f; depth := 32; c_class := TrueColor |} eq_refl Hb).
    apply lookup_singleton_eq. }
  exact (proj2 (setClickThrough_unsets_input env0 _ (overlay env0) _
                  eq_refl Hout Hw) 1680 60).
Defined.

(** X10: with a display, a 32-bit TrueColor visual [v] and XIDs that do not
    start at 0, the setup leaves exactly this at the server, with or
    without the SHAPE extension or a window manager: one colormap for [v];
    one window, the overlay, on top of the stack, mapped, named
    "C ClickThrough Test", at the computed position, 200 by 200, with no
    client shape of any kind and with the white text drawn over the red
    fill; one graphics context with a white foreground; nothing handed to
    the window manager and no error. *)
Theorem setup_end_state (env : Connection) (vinfo0 v : XVisualInfo) (fuel : nat) :
  display_available env = true →
  resource_base env ≠ 0 →
  find (λ v, (depth v =? 32) && (c_class v =? TrueColor)) (screen_visuals env) = Some v →
  server (exec (main env vinfo0 fuel) start) =
  {| colormaps := {[ overlay_colormap env := visual v ]};
     windows :=
       {[ overlay env :=
            {| w_x := int_sub (int_sub (width_in_pixels env) 200) 50; w_y := 50;
               w_width := 200; w_height := 200; w_border_width := 0;
               w_depth := depth v; w_visual := visual v;
               w_colormap := Some (overlay_colormap env);
               w_background := Some 0; w_border := Some 0;
               w_override_redirect := true; w_mapped := true;
               w_name := Some "C ClickThrough Test";
               w_bounding := None; w_clip := None; w_input := None;
               w_drawn :=
                 [ Text 0xFFFFFFFF 50 100 "Click Through Test";
                   Fill 0xFFFF0000
                     {| rx := 0; ry := 0; rwidth := 200; rheight := 200 |} ] |} ]};
     stacking := [ overlay env ];
     gcs := {[ overlay_gc env := 0xFFFFFFFF ]};
     pixmaps := ∅; map_requests := []; errors := [] |}.
Proof.
  intros Hd Hb Hf. by rewrite (server_after_main env vinfo0 v).
Qed.

Lemma setup_end_state_witness :
  errors (server (exec (main env0 stack_garbage 1) start)) = [] ∧
  stacking (server (exec (main env0 stack_garbage 1) start)) = [ overlay env0 ].
Proof.
  assert (resource_base env0 ≠ 0) as Hb by (cbn; lia).
  pose proof (setup_end_state env0 stack_garbage
                {| visual := 0x5f; depth := 32; c_class := TrueColor |} 1
                eq_refl Hb eq_refl) as H.
  rewrite H. split; reflexivity.
Defined.

(** X5: the console output of a run in which no request is refused.  With a
    display and a 32-bit TrueColor visual, the server raises no error and
    [main] prints the same six status lines in the same order, with or
    without the SHAPE extension and with or without a window manager; only
    the x position and the window id vary. *)
Theorem console_output (env : Connection) (vinfo0 v : XVisualInfo) (fuel : nat) :
  display_available env = true →
  resource_base env ≠ 0 →
  find (λ v, (depth v =? 32) && (c_class v =? TrueColor)) (screen_visuals env) = Some v →
  errors (server (exec (main env vinfo0 fuel) start)) = [] ∧
  stdout (trace (exec (main env vinfo0 fuel) start)) =
    [ ("Window created at (%d, %d) size %dx%d\n",
       [int_sub (int_sub (width_in_pixels env) 200) 50; 50; 200; 200]);
      ("Window ID: 0x%lx\n", [overlay env]);
      ("Applying click-through with Shape extension...\n", []);
      ("Click-through applied - input shape removed\n", []);
      ("Window should be visible and click-through\n", []);
      ("Press Ctrl+C to exit\n", []) ].
Proof.
  intros Hd Hb Hf. split; [by rewrite (server_after_main env vinfo0 v)|].
  rewrite main_trace by done. unfold stdout.
  rewrite !app_assoc, omap_app. fold (stdout (repeat (Slept 1) fuel)).
  rewrite stdout_sleeps, app_nil_r.
  unfold show_trace, clickthrough_trace, paint_trace.
  by destruct (shape_extension env).
Qed.

Lemma console_output_witness :
  errors (server (exec (main env_no_shape stack_garbage 1) start)) = [].
Proof.
  assert (resource_base env_no_shape ≠ 0) as Hb by (cbn; lia).
  exact (proj1 (console_output env_no_shape stack_garbage
                  {| visual := 0x5f; depth := 32; c_class := TrueColor |} 1
                  eq_refl Hb eq_refl)).
Defined.
